(** * DataGPT: the natural-language-to-SQL pipeline of [app.py] and [chatbot.py]

    A shallow embedding of the query sanitizer [clean_sql_query] (identical in
    both source files), of the answer synthesizer [generate_friendly_answer]
    and of the chat form submission handler of [app.py], followed by the
    properties of the specification that concern them.

    Python [str] values are modelled as lists of characters.  A character is
    a code point in the range U+0000..U+00FF (the 256 values of [ascii]); on
    that range the tables below are the ones CPython uses for
    [str.isspace] / the regex class [\s], for [str.splitlines] and for
    [str.lower]. *)

From Stdlib Require Import List Bool Arith ZArith Lia Ascii String.
Import ListNotations.

Set Implicit Arguments.

(** ** Characters and text *)

Module Text.

Definition str := list ascii.

(** A literal of the source, character by character. *)
Definition py (s : string) : str := list_ascii_of_string s.

Definition code (c : ascii) : nat := nat_of_ascii c.

Definition backtick : ascii := "`"%char.
Definition squote : ascii := "'"%char.
Definition dquote : ascii := "034"%char.
Definition space : ascii := " "%char.
Definition tab : ascii := "009"%char.
Definition newline : ascii := "010"%char.
Definition cr : ascii := "013"%char.

(** [str.isspace] on one character, which is also what [\s] matches in a
    [str] pattern: U+0009..U+000D, U+001C..U+0020, U+0085 and U+00A0. *)
Definition isspace (c : ascii) : bool :=
  let n := code c in
  ((9 <=? n) && (n <=? 13)) || ((28 <=? n) && (n <=? 32))
  || (n =? 133) || (n =? 160).

(** The line boundaries of [str.splitlines]: U+000A..U+000D,
    U+001C..U+001E and U+0085. *)
Definition islinebreak (c : ascii) : bool :=
  let n := code c in
  ((10 <=? n) && (n <=? 13)) || ((28 <=? n) && (n <=? 30)) || (n =? 133).

(** [str.lower] on one character: A..Z and the capital letters of
    U+00C0..U+00DE (all but the multiplication sign U+00D7) move up by 32. *)
Definition lower_char (c : ascii) : ascii :=
  let n := code c in
  if ((65 <=? n) && (n <=? 90))
     || ((192 <=? n) && (n <=? 222) && negb (n =? 215))
  then ascii_of_nat (n + 32) else c.

Definition lower (s : str) : str := map lower_char s.

(** [s.startswith(p)] *)
Fixpoint startswith (p s : str) : bool :=
  match p, s with
  | [], _ => true
  | _ :: _, [] => false
  | a :: p', b :: s' => Ascii.eqb a b && startswith p' s'
  end.

(** [s.startswith((p1, p2, ...))] *)
Definition startswith_any (ps : list str) (s : str) : bool :=
  existsb (fun p => startswith p s) ps.

(** [s.lstrip(chars)], [s.rstrip(chars)] and [s.strip(chars)], the set of
    characters given as a predicate. *)
Fixpoint lstrip_by (p : ascii -> bool) (s : str) : str :=
  match s with
  | [] => []
  | c :: r => if p c then lstrip_by p r else s
  end.

Definition rstrip_by (p : ascii -> bool) (s : str) : str :=
  rev (lstrip_by p (rev s)).

Definition strip_by (p : ascii -> bool) (s : str) : str :=
  rstrip_by p (lstrip_by p s).

(** [s.strip()] *)
Definition strip (s : str) : str := strip_by isspace s.

(** [c in chars] *)
Definition char_in (chars : str) (c : ascii) : bool :=
  existsb (Ascii.eqb c) chars.

(** Where [str.splitlines] resumes after the line boundary [c]: a carriage
    return followed by a newline counts as one boundary. *)
Definition after_break (c : ascii) (r : str) : str :=
  match r with
  | d :: r' => if Ascii.eqb c cr && Ascii.eqb d newline then r' else r
  | [] => r
  end.

(** [s.splitlines()]: [cur] is the current line, last character first.  A
    line ends at a line boundary, and a final boundary opens no further
    line. *)
Fixpoint splitlines_from (cur : str) (s : str) : list str :=
  match s with
  | [] => match cur with [] => [] | _ :: _ => [rev cur] end
  | c :: r =>
      if islinebreak c
      then rev cur :: splitlines_from [] (after_break c r)
      else splitlines_from (c :: cur) r
  end.

Definition splitlines (s : str) : list str := splitlines_from [] s.

(** Truth value of a [str]: the empty string is false. *)
Definition truthy (s : str) : bool :=
  match s with [] => false | _ :: _ => true end.

(** The first and the last character of a text, tested by [p]. *)
Definition starts_in (p : ascii -> bool) (s : str) : bool :=
  match s with [] => false | c :: _ => p c end.

Definition ends_in (p : ascii -> bool) (s : str) : bool :=
  starts_in p (rev s).

End Text.

Import Text.

(** ** The query sanitizer: [clean_sql_query] *)

Module Sanitizer.

(** The alternation [(```|''')] at the head of a text: the rest of the text
    after the marker. *)
Definition is_fence (c1 c2 c3 : ascii) : bool :=
  (Ascii.eqb c1 backtick && Ascii.eqb c2 backtick && Ascii.eqb c3 backtick)
  || (Ascii.eqb c1 squote && Ascii.eqb c2 squote && Ascii.eqb c3 squote).

Definition fence_marker (s : str) : option str :=
  match s with
  | c1 :: c2 :: c3 :: r => if is_fence c1 c2 c3 then Some r else None
  | _ => None
  end.

(** One pattern letter under [re.IGNORECASE]. *)
Definition ieq (letter c : ascii) : bool := Ascii.eqb (lower_char c) letter.

(** [\s*sql\s*] at the head of a text, ignoring case: the rest of the text
    after the match.  Both [\s*] are greedy, and giving white space back
    never helps since the next pattern character is a letter. *)
Definition tag_ws (s : str) : option str :=
  match lstrip_by isspace s with
  | c1 :: c2 :: c3 :: r =>
      if ieq "s" c1 && ieq "q" c2 && ieq "l" c3
      then Some (lstrip_by isspace r) else None
  | _ => None
  end.

(** [^(```|''')?\s*sql\s*] matched at position 0: first with the optional
    marker taken, then (backtracking) without it. *)
Definition match_leading (s : str) : option str :=
  match match fence_marker s with
        | Some r => tag_ws r
        | None => None
        end with
  | Some r => Some r
  | None => tag_ws s
  end.

(** The first [re.sub], which deletes the matches of the pattern above under
    [re.IGNORECASE]: without [re.MULTILINE] the anchor holds at position 0
    only, so there is at most one match. *)
Definition sub_leading (s : str) : str :=
  match match_leading s with
  | Some r => r
  | None => s
  end.

(** The second [re.sub], which deletes the matches of [(```|''')$]: the
    anchor [$] holds at the end of the text and just before a newline that
    ends the text, so there is at most one match; the text is read from its
    end. *)
Definition sub_trailing (s : str) : str :=
  match rev s with
  | c3 :: c2 :: c1 :: r =>
      if is_fence c1 c2 c3 then rev r
      else
        match r with
        | c0 :: r' =>
            if Ascii.eqb c3 newline && is_fence c0 c1 c2
            then rev (c3 :: r') else s
        | [] => s
        end
  | _ => s
  end.

(** The argument of [sql_query.strip]: backtick, single quote, double quote,
    space and newline. *)
Definition strip_chars : str := [backtick; squote; dquote; space; newline].

Definition in_strip_chars (c : ascii) : bool := char_in strip_chars c.

(** The text after the two substitutions and the strip (source lines 12 to
    14 of [app.py], 22 to 25 of [chatbot.py]). *)
Definition stripped (sql_query : str) : str :=
  strip_by in_strip_chars (sub_trailing (sub_leading sql_query)).

(** [[line.strip() for line in s.splitlines() if line.strip()]] *)
Definition nonempty_lines (s : str) : list str :=
  filter truthy (map strip (splitlines s)).

Definition keywords : list str :=
  [py "select"; py "update"; py "delete"; py "insert"; py "with"].

(** [line.lower().startswith(('select', 'update', 'delete', 'insert', 'with'))] *)
Definition is_statement (line : str) : bool :=
  startswith_any keywords (lower line).

(** The [for] loop with its [return], then the fallback of the last line. *)
Definition select_line (lines : list str) (sql_query : str) : str :=
  match find is_statement lines with
  | Some line => line
  | None =>
      match lines with
      | line :: _ => line
      | [] => sql_query
      end
  end.

Definition clean_sql_query (sql_query : str) : str :=
  let sql_query := stripped sql_query in
  select_line (nonempty_lines sql_query) sql_query.

End Sanitizer.

Import Sanitizer.

(** ** The pipeline of [app.py]: generation, execution, summary, history *)

Module Pipeline.

(** What a call that may raise comes back with; an exception is kept as its
    text, [str(e)]. *)
Inductive outcome (A : Type) : Type :=
| Returned (a : A)
| Raised (e : str).

Arguments Returned {A} a.
Arguments Raised {A} e.

Definition outcome_map {A B : Type} (f : A -> B) (o : outcome A) : outcome B :=
  match o with
  | Returned a => Returned (f a)
  | Raised e => Raised e
  end.

(** A value of a result row. *)
Inductive cell : Type :=
| IntCell (n : nat)
| TextCell (s : str)
| NullCell.

(** [pd.DataFrame(rows, columns=result.keys())] *)
Record DataFrame : Type := {
  columns : list str;
  rows : list (list cell)
}.

(** [DataFrame.empty]: some axis has length 0. *)
Definition empty (df : DataFrame) : bool :=
  match rows df, columns df with
  | [], _ => true
  | _, [] => true
  | _ :: _, _ :: _ => false
  end.

(** The calls made to the two external collaborators, oldest first. *)
Inductive call : Type :=
| Generate (prompt : str)
| Execute (statement : str).

(** The state a turn runs in: the calls made so far, and the local variable
    [cleaned_sql] of the script run ([None] while it is unbound). *)
Record state : Type := {
  calls : list call;
  cleaned_sql : option str
}.

Definition M (A : Type) : Type := state -> outcome A * state.

Definition ret {A : Type} (a : A) : M A := fun st => (Returned a, st).

Definition bind {A B : Type} (m : M A) (k : A -> M B) : M B :=
  fun st =>
    match m st with
    | (Returned a, st') => k a st'
    | (Raised e, st') => (Raised e, st')
    end.

Notation "x <- m ;; k" := (bind m (fun x => k))
  (at level 61, m at next level, right associativity).

Definition record_call (c : call) (st : state) : state :=
  {| calls := calls st ++ [c]; cleaned_sql := cleaned_sql st |}.

(** [cleaned_sql = v]; the value bound is handed on. *)
Definition assign_cleaned_sql (v : str) : M str :=
  fun st => (Returned v, {| calls := calls st; cleaned_sql := Some v |}).

(** One entry of [st.session_state.history]: a dict with the keys
    [question] and [sql], and with [result_df], [friendly_answer] and [error]
    present or absent. *)
Record entry : Type := {
  question : str;
  sql : str;
  result_df : option DataFrame;
  friendly_answer : option str;
  error : option str
}.

Section Collaborators.

(** [model.generate_content(prompt)] followed by [response.text], given the
    calls made before it. *)
Variable generate_content : list call -> str -> outcome str.

(** [engine.connect()], [connection.execute(text(statement))],
    [result.fetchall()] and the construction of the data frame, given the
    calls made before. *)
Variable execute : list call -> str -> outcome DataFrame.

(** [result_df.to_markdown(index=False)] *)
Variable to_markdown : DataFrame -> str.

Definition generate (prompt : str) : M str :=
  fun st => (generate_content (calls st) prompt, record_call (Generate prompt) st).

Definition run_statement (statement : str) : M DataFrame :=
  fun st => (execute (calls st) statement, record_call (Execute statement) st).

(** The prompt of [generate_sql_query] in [app.py]. *)
Definition sql_prompt (question table_name table_info : str) : str :=
  py "Given the following question and database schema, generate a valid SQLite SQL query."
  ++ newline :: py "Question: " ++ question
  ++ newline :: newline :: py "Database Schema:"
  ++ newline :: py "Table: " ++ table_name
  ++ newline :: py "Columns: " ++ table_info
  ++ newline :: newline ::
  py "Return ONLY the SQL query, with NO explanation, NO comments, and NO formatting. Do NOT include ```sql or any markdown. Only output the SQL statement. The SQL query should be written so that the result is displayed in a well-formatted, readable table with clear column names and no extra text.".

Definition generate_sql_query (question table_name table_info : str) : M str :=
  response_text <- generate (sql_prompt question table_name table_info) ;;
  ret (strip response_text).

(** The prompt of [generate_friendly_answer]. *)
Definition answer_prompt (question : str) (result_df : DataFrame) : str :=
  py "Given the user's question and the following SQL result table, provide a concise, user-friendly, conversational answer (do not repeat the table, just summarize the result in plain English):"
  ++ newline :: py "Question: " ++ question
  ++ newline :: py "SQL Result Table:"
  ++ newline :: to_markdown result_df
  ++ newline :: py "Answer:".

Definition generate_friendly_answer (question : str) (result_df : DataFrame)
  : M str :=
  if empty result_df then ret (py "No results found.")
  else
    response_text <- generate (answer_prompt question result_df) ;;
    ret (strip response_text).

(** The body of the [try] of the submission handler. *)
Definition try_body (user_input table_name table_info : str) : M entry :=
  sql_query <- generate_sql_query user_input table_name table_info ;;
  cleaned <- assign_cleaned_sql (clean_sql_query sql_query) ;;
  result_df <- run_statement cleaned ;;
  answer <- generate_friendly_answer user_input result_df ;;
  ret {| question := user_input;
         sql := cleaned;
         result_df := Some result_df;
         friendly_answer := Some answer;
         error := None |}.

(** The entry of the [except] branch:
    [cleaned_sql if 'cleaned_sql' in locals() else 'N/A']. *)
Definition except_entry (user_input e : str) (st : state) : entry :=
  {| question := user_input;
     sql := match cleaned_sql st with
            | Some v => v
            | None => py "N/A"
            end;
     result_df := None;
     friendly_answer := None;
     error := Some e |}.

(** The handler: [if submitted and user_input: try: ... except ...].  Each
    run of the script starts with [cleaned_sql] unbound; [done] are the
    calls of the session so far. *)
Definition submit (submitted : bool) (user_input table_name table_info : str)
    (done : list call) (history : list entry) : list entry * list call :=
  if submitted && truthy user_input then
    match try_body user_input table_name table_info
            {| calls := done; cleaned_sql := None |} with
    | (Returned e, st) => (history ++ [e], calls st)
    | (Raised e, st) => (history ++ [except_entry user_input e st], calls st)
    end
  else (history, done).

End Collaborators.

End Pipeline.

Import Pipeline.

(** ** Vocabulary of the specification *)

Module Spec.

(** A backtick, a single quote or a double quote. *)
Definition is_quote (c : ascii) : bool :=
  char_in [backtick; squote; dquote] c.

(** No line boundary inside. *)
Definition single_line (s : str) : bool :=
  forallb (fun c => negb (islinebreak c)) s.

(** No white space at either end. *)
Definition trimmed (s : str) : bool :=
  negb (starts_in isspace s) && negb (ends_in isspace s).

(** The sanitizer has a line to scan: the stripped text has a non-empty
    trimmed line. *)
Definition has_line (raw : str) : bool :=
  match nonempty_lines (stripped raw) with
  | [] => false
  | _ :: _ => true
  end.

(** Some line the sanitizer scans looks like a statement. *)
Definition has_statement_line (raw : str) : bool :=
  existsb is_statement (nonempty_lines (stripped raw)).

(** The invariant the specification gives for a SanitizedQuery (section 3):
    non-empty, a single line, beginning with a statement keyword whatever the
    letter case, and free of fencing and quote artifacts, read here in the
    weakest way: no backtick or quote left at either end. *)
Definition spec_SanitizedQuery (q : str) : Prop :=
  q <> []
  /\ single_line q = true
  /\ is_statement q = true
  /\ starts_in is_quote q = false
  /\ ends_in is_quote q = false.

(** The characters that step 3 of the specification's algorithm, as the
    claim reads it, removes from both ends: the three quote characters and
    any white space. *)
Definition spec_strip_class (c : ascii) : bool := is_quote c || isspace c.

(** Steps 1 to 3 with the strip of step 3 as the claim reads it. *)
Definition spec_stripped (raw : str) : str :=
  strip_by spec_strip_class (sub_trailing (sub_leading raw)).

(** The first pattern of the sanitizer (the optional fence, white space, the
    tag sql under [re.IGNORECASE], white space) matches at the head of the
    text. *)
Definition leading_match (q : str) : bool :=
  match match_leading q with
  | Some _ => true
  | None => false
  end.

(** A text on which a further run of the sanitizer finds nothing to remove
    at the ends: the first pattern does not match at its head, and it has no
    backtick or quote at either end.  The head is tested with the pattern
    itself and not with [str.lower]: under [re.IGNORECASE] the letter s of the
    pattern also stands for U+017F, a code point beyond the range of [str]
    here, which [str.lower] leaves as it is. *)
Definition settled (q : str) : bool :=
  negb (leading_match q)
  && negb (starts_in is_quote q)
  && negb (ends_in is_quote q).

(** A history entry that reports a success with the table and without a
    prose summary. *)
Definition success_without_summary (e : entry) (query : str) (df : DataFrame)
  : Prop :=
  sql e = query /\ result_df e = Some df
  /\ friendly_answer e = None /\ error e = None.

(** A text of the leading tag: the letters s, q, l in any case. *)
Definition is_sql_tag (t : str) : bool :=
  match t with
  | [c1; c2; c3] => ieq "s" c1 && ieq "q" c2 && ieq "l" c3
  | _ => false
  end.

End Spec.

Import Spec.

(** ** Outcomes and concrete runs *)

Module Scenario.

(** The entry of a failed turn and the entry of a successful one. *)
Definition failure_entry (q query e : str) : entry :=
  {| question := q; sql := query; result_df := None;
     friendly_answer := None; error := Some e |}.

Definition success_entry (q query : str) (df : DataFrame) (answer : str)
  : entry :=
  {| question := q; sql := query; result_df := Some df;
     friendly_answer := Some answer; error := None |}.

(** A result set as the store returns it: at least one named column, and
    rows of that width. *)
Definition is_result_set (df : DataFrame) : Prop :=
  columns df <> []
  /\ Forall (fun r => List.length r = List.length (columns df)) (rows df).

(** The specification's reading of a summary failure (sections 4.5, 4.6 and
    7): whenever the query is generated, the store returns a result set
    that is not empty and the second generation call raises, the entry
    appended to the history is a success with the table and no summary. *)
Definition spec_summary_failure_non_fatal
    (generate_content : list call -> str -> outcome str)
    (execute : list call -> str -> outcome DataFrame)
    (to_markdown : DataFrame -> str)
    (q table_name table_info : str) (done : list call) (history : list entry)
  : Prop :=
  forall (raw : str) (df : DataFrame) (e : str),
    generate_content done (sql_prompt q table_name table_info) = Returned raw ->
    execute (done ++ [Generate (sql_prompt q table_name table_info)])
      (clean_sql_query (strip raw)) = Returned df ->
    empty df = false ->
    generate_content
      ((done ++ [Generate (sql_prompt q table_name table_info)])
         ++ [Execute (clean_sql_query (strip raw))])
      (answer_prompt to_markdown q df) = Raised e ->
    exists ent : entry,
      fst (submit generate_content execute to_markdown true q table_name
             table_info done history) = history ++ [ent]
      /\ success_without_summary ent (clean_sql_query (strip raw)) df.

Definition orders : str := py "orders".
Definition orders_info : str := py "order_id (str), city (str)".
Definition how_many : str := py "how many orders are there".

(** The count over the five default rows. *)
Definition count_df : DataFrame :=
  {| columns := [py "COUNT(*)"]; rows := [[IntCell 5]] |}.

Definition no_rows_df : DataFrame :=
  {| columns := [py "city"]; rows := [] |}.

Definition render (_ : DataFrame) : str := py "|   COUNT(*) |".

(** A model that answers the first call of the session and is out of reach
    afterwards. *)
Definition model_then_down (done : list call) (_ : str) : outcome str :=
  match done with
  | [] => Returned (py "```sql" ++ newline :: py "SELECT COUNT(*) FROM orders"
                       ++ newline :: py "```")
  | _ :: _ => Raised (py "503 The model is overloaded.")
  end.

(** A model that is always in reach. *)
Definition model_up (done : list call) (_ : str) : outcome str :=
  match done with
  | [] => Returned (py "SELECT nope FROM orders")
  | _ :: _ => Returned (py " There are 5 orders. ")
  end.

Definition store_counts (_ : list call) (_ : str) : outcome DataFrame :=
  Returned count_df.

(** A store that rejects the statement. *)
Definition store_rejects (_ : list call) (_ : str) : outcome DataFrame :=
  Raised (py "(sqlite3.OperationalError) no such column: nope").

End Scenario.

Import Scenario.

(** ** Model selection: [try_model] and [load_model] *)

Module Selection.

Definition hello : str := py "Say hello!".
Definition primary : str := py "models/gemini-2.0-flash".
Definition secondary : str := py "models/text-bison-001".

Definition key_not_set : str :=
  py "GOOGLE_API_KEY not set. Please add it to your .env file.".
Definition no_model : str :=
  py "No supported Gemini model is available for your API key.".

(** What [load_model] of [app.py] ends with: the model (known by its name),
    or [st.error(message)] followed by [st.stop()]. *)
Inductive loaded : Type :=
| Loaded (model : str)
| Halted (message : str).

Section Probe.

(** [genai.GenerativeModel(model_name).generate_content(prompt)]: the call
    raises, or returns a response whose [text] raises or is a text. *)
Variable probe : str -> str -> outcome (outcome str).

(** [try_model] of [app.py]: the response is not looked at. *)
Definition try_model (model_name : str) : option str :=
  match probe model_name hello with
  | Returned _ => Some model_name
  | Raised _ => None
  end.

(** [try_model] of [chatbot.py]: [response.text] is printed inside the
    [try].  The second component is what is printed. *)
Definition try_model_verbose (model_name : str) : option str * list str :=
  match probe model_name hello with
  | Returned (Returned text) =>
      (Some model_name,
       [py "[Model: " ++ model_name ++ py "] Test response: " ++ strip text])
  | Returned (Raised e) | Raised e =>
      (None,
       [py "[Model: " ++ model_name ++ py "] Not available. Error: " ++ e])
  end.

(** [load_model] of [app.py], with the names probed, in order.  [api_key] is
    [os.getenv] of the key: [None] when unset. *)
Definition load_model (api_key : option str) : loaded * list str :=
  match api_key with
  | None | Some [] => (Halted key_not_set, [])
  | Some (_ :: _) =>
      match try_model primary with
      | Some model => (Loaded model, [primary])
      | None =>
          match try_model secondary with
          | Some model => (Loaded model, [primary; secondary])
          | None => (Halted no_model, [primary; secondary])
          end
      end
  end.

End Probe.

End Selection.

(** ** Schema description and table name *)

Module Schema.

(** [sep.join(parts)] *)
Fixpoint join (sep : str) (parts : list str) : str :=
  match parts with
  | [] => []
  | [part] => part
  | part :: rest => part ++ sep ++ join sep rest
  end.

(** The f-string of one column: the name, a space and the type label in
    parentheses. *)
Definition column_label (col dtype : str) : str :=
  col ++ py " (" ++ dtype ++ py ")".

(** [", ".join(f"{col} ({dtype})" for col, dtype in df.dtypes.items())];
    a type is its text. *)
Definition describe (dtypes : list (str * str)) : str :=
  join (py ", ") (map (fun cd => column_label (fst cd) (snd cd)) dtypes).

Definition DEFAULT_COLUMNS : list str :=
  [py "order_id"; py "customer_id"; py "customer_name"; py "product_id";
   py "product_name"; py "category"; py "quantity"; py "price_per_unit";
   py "total_amount"; py "order_date"; py "city"; py "country"].

(** [", ".join(f"{col} (str)" for col in DEFAULT_COLUMNS)] *)
Definition default_table_info : str :=
  join (py ", ") (map (fun col => column_label col (py "str")) DEFAULT_COLUMNS).

(** [s.rfind(c)]: the highest index of [c], or -1. *)
Fixpoint rfind_from (c : ascii) (s : str) (i last : Z) : Z :=
  match s with
  | [] => last
  | a :: r => rfind_from c r (i + 1)%Z (if Ascii.eqb a c then i else last)
  end.

Definition rfind (c : ascii) (s : str) : Z := rfind_from c s 0%Z (-1)%Z.

(** [s[a:b]] for indices that are not negative. *)
Definition slice (s : str) (a b : Z) : str :=
  firstn (Z.to_nat (b - a)) (skipn (Z.to_nat a) s).

(** [os.path.splitext(p)] of [posixpath]: the extension starts at the last
    dot of the last path component, unless only dots come before it
    there. *)
Definition splitext (p : str) : str * str :=
  let sepIndex := rfind "/" p in
  let dotIndex := rfind "." p in
  if (dotIndex >? sepIndex)%Z then
    if existsb (fun c => negb (Ascii.eqb c "."))
         (slice p (sepIndex + 1)%Z dotIndex)
    then (firstn (Z.to_nat dotIndex) p, skipn (Z.to_nat dotIndex) p)
    else (p, [])
  else (p, []).

(** [s.replace(" ", "_")] *)
Definition replace_spaces (s : str) : str :=
  map (fun c => if Ascii.eqb c space then "_"%char else c) s.

(** [os.path.splitext(uploaded_file.name)[0].replace(" ", "_")] *)
Definition table_name_of (file_name : str) : str :=
  replace_spaces (fst (splitext file_name)).

End Schema.

(** ** The history display of [app.py] *)

Module Display.

(** The calls made on [st] while the history is shown. *)
Inductive widget : Type :=
| Markdown (body : str)
| Code (body : str)
| Dataframe (df : DataFrame)
| ErrorBox (body : str).

(** Why the display stops before its end: [entry['error']] is looked up
    and absent, or a widget call raises. *)
Inductive failure : Type :=
| KeyError (key : str)
| WidgetError (e : str).

(** The text of the exception, [str(e)]. *)
Definition failure_text (f : failure) : str :=
  match f with
  | KeyError key => squote :: key ++ [squote]
  | WidgetError e => e
  end.

Section Widgets.

(** [st.dataframe(df)]: the table is shown, or the call raises, as it does
    for a table in which two columns have one name. *)
Variable show_dataframe : DataFrame -> outcome unit.

(** The body of the loop for one entry: the widgets shown, and the exception
    that ends the display, if any.  The loop is outside every [try]. *)
Definition render_entry (e : entry) : list widget * option failure :=
  let head :=
    [Markdown (py "**You:** " ++ question e);
     Markdown (py "**Generated SQL:**");
     Code (sql e)] in
  let tail :=
    match friendly_answer e with
    | Some answer => [Markdown (py "**Answer:** " ++ answer)]
    | None => []
    end ++ [Markdown (py "---")] in
  match result_df e with
  | Some df =>
      match show_dataframe df with
      | Returned _ =>
          (head ++ [Markdown (py "**Result:**"); Dataframe df] ++ tail, None)
      | Raised err =>
          (head ++ [Markdown (py "**Result:**")], Some (WidgetError err))
      end
  | None =>
      match error e with
      | Some err => (head ++ [ErrorBox (py "**Error:** " ++ err)] ++ tail, None)
      | None => (head, Some (KeyError (py "error")))
      end
  end.

Fixpoint render_all (entries : list entry) : list widget * option failure :=
  match entries with
  | [] => ([], None)
  | e :: rest =>
      match render_entry e with
      | (shown, Some err) => (shown, Some err)
      | (shown, None) =>
          let (more, err) := render_all rest in (shown ++ more, err)
      end
  end.

(** [for entry in reversed(st.session_state.history): ...] *)
Definition render_history (history : list entry)
  : list widget * option failure :=
  render_all (rev history).

(** [st.dataframe] shows every table of the entries. *)
Definition tables_shown (entries : list entry) : Prop :=
  forall e df,
    In e entries -> result_df e = Some df -> show_dataframe df = Returned tt.

(** [st.dataframe] raises [err] on a table of the entries. *)
Definition table_fails (entries : list entry) (err : str) : Prop :=
  exists e df,
    In e entries /\ result_df e = Some df /\ show_dataframe df = Raised err.

End Widgets.

(** An entry the display can show: it has the rows or the error text. *)
Definition showable (e : entry) : bool :=
  match result_df e, error e with
  | None, None => false
  | _, _ => true
  end.

End Display.

(** ** The script of [app.py], one run *)

Module App.

(** [st.session_state]: each key is present or absent. *)
Record session : Type := {
  db_ready : option bool;
  table_name : option str;
  table_info : option str;
  history : option (list entry)
}.

(** The file of the uploader: its name, what [pd.read_csv] makes of it (the
    columns with their types, or an exception), and what [df.to_sql] does
    with the frame. *)
Record uploaded_file : Type := {
  name : str;
  read_csv : outcome (list (str * str));
  to_sql : outcome unit
}.

(** How a run of the script ends: at its last line, at [st.stop()], or with
    an exception nothing catches. *)
Inductive ending : Type :=
| Completed
| Stopped (message : str)
| Crashed (e : str).

Record run : Type := {
  after : session;
  made : list call;
  shown : list Display.widget;
  ended : ending
}.

Section Script.

Variable generate_content : list call -> str -> outcome str.
Variable execute : list call -> str -> outcome DataFrame.
Variable to_markdown : DataFrame -> str.

(** [st.dataframe(df)] in the display of the history. *)
Variable show_dataframe : DataFrame -> outcome unit.

(** The text of the [AttributeError] of [st.session_state] for a key. *)
Variable missing_attribute : str -> str.

(** [create_default_table(engine)]: what [df.to_sql] of the default frame
    does. *)
Variable default_to_sql : outcome unit.

(** [if 'db_ready' not in st.session_state: ...] *)
Definition default_block (ss : session) : outcome session :=
  match db_ready ss with
  | Some _ => Returned ss
  | None =>
      match default_to_sql with
      | Raised e => Raised e
      | Returned _ =>
          Returned {| db_ready := Some true;
                      table_name := Some (py "orders");
                      table_info := Some Schema.default_table_info;
                      history := history ss |}
      end
  end.

Definition set_db_ready (b : bool) (ss : session) : session :=
  {| db_ready := Some b; table_name := table_name ss;
     table_info := table_info ss; history := history ss |}.

(** [if uploaded_file: try: ... except Exception as e: ...] *)
Definition upload_block (ss : session) (uploaded : option uploaded_file)
  : session :=
  match uploaded with
  | None => ss
  | Some f =>
      match read_csv f with
      | Raised _ => set_db_ready false ss
      | Returned dtypes =>
          match to_sql f with
          | Raised _ => set_db_ready false ss
          | Returned _ =>
              {| db_ready := Some true;
                 table_name := Some (Schema.table_name_of (name f));
                 table_info := Some (Schema.describe dtypes);
                 history := history ss |}
          end
      end
  end.

(** The submission handler on the session: the two attributes are read
    inside the [try], the name first. *)
Definition handle (ss : session) (h : list entry) (submitted : bool)
    (user_input : str) (done : list call) : list entry * list call :=
  match table_name ss, table_info ss with
  | Some tn, Some ti =>
      submit generate_content execute to_markdown submitted user_input tn ti
        done h
  | None, _ =>
      if submitted && truthy user_input
      then (h ++ [except_entry user_input (missing_attribute (py "table_name"))
                    {| calls := done; cleaned_sql := None |}], done)
      else (h, done)
  | Some _, None =>
      if submitted && truthy user_input
      then (h ++ [except_entry user_input (missing_attribute (py "table_info"))
                    {| calls := done; cleaned_sql := None |}], done)
      else (h, done)
  end.

(** [if st.session_state.get("db_ready", False): ... else: ...] *)
Definition chat_block (ss : session) (submitted : bool) (user_input : str)
    (done : list call) : run :=
  match db_ready ss with
  | Some true =>
      match table_name ss with
      | None =>
          {| after := ss; made := done; shown := [];
             ended := Crashed (missing_attribute (py "table_name")) |}
      | Some _ =>
          let h := match history ss with Some h => h | None => [] end in
          let (h', done') := handle ss h submitted user_input done in
          let ss' := {| db_ready := db_ready ss; table_name := table_name ss;
                        table_info := table_info ss; history := Some h' |} in
          match Display.render_history show_dataframe h' with
          | (widgets, None) =>
              {| after := ss'; made := done'; shown := widgets;
                 ended := Completed |}
          | (widgets, Some f) =>
              {| after := ss'; made := done'; shown := widgets;
                 ended := Crashed (Display.failure_text f) |}
          end
      end
  | Some false | None =>
      {| after := ss; made := done; shown := []; ended := Completed |}
  end.

(** One run of the script, from [load_model()] to the last line. *)
Definition script_run (model : Selection.loaded) (ss : session)
    (uploaded : option uploaded_file) (submitted : bool) (user_input : str)
    (done : list call) : run :=
  match model with
  | Selection.Halted message =>
      {| after := ss; made := done; shown := []; ended := Stopped message |}
  | Selection.Loaded _ =>
      match default_block ss with
      | Raised e =>
          {| after := ss; made := done; shown := []; ended := Crashed e |}
      | Returned ss1 =>
          chat_block (upload_block ss1 uploaded) submitted user_input done
      end
  end.

(** Runs of the script one after the other, with no file in the uploader:
    each run has its form input. *)
Fixpoint runs_without_file (model : Selection.loaded) (ss : session)
    (forms : list (bool * str)) (done : list call) : session * list call :=
  match forms with
  | [] => (ss, done)
  | (submitted, user_input) :: rest =>
      let r := script_run model ss None submitted user_input done in
      runs_without_file model (after r) rest (made r)
  end.

End Script.

(** The session of a browser tab that has just been opened. *)
Definition fresh : session :=
  {| db_ready := None; table_name := None; table_info := None;
     history := None |}.

(** A session in which the keys of the table come with [db_ready]. *)
Definition coherent (ss : session) : Prop :=
  db_ready ss <> None -> table_name ss <> None /\ table_info ss <> None.

End App.

(** ** The command-line front end of [chatbot.py] *)

Module Chatbot.

(** What goes to the terminal: a [print], or the prompt of [input]. *)
Inductive output : Type :=
| Print (line : str)
| Prompt (text : str).

(** How the loop stops: at [break], or at the [EOFError] of [input]. *)
Inductive stop : Type :=
| Exit
| EndOfInput.

(** The text of the [EOFError] of [input]. *)
Definition eof_text : str := py "EOF when reading a line".

Definition table_info : str :=
  py "id (integer), name (text), department (text), salary (integer)".

(** The prompt of [generate_sql_query] in [chatbot.py]. *)
Definition sql_prompt (question table_info : str) : str :=
  py "Given the following question and database schema, generate a valid SQLite SQL query."
  ++ newline :: py "Question: " ++ question
  ++ newline :: newline :: py "Database Schema:"
  ++ newline :: py "Table: employees"
  ++ newline :: py "Columns: " ++ table_info
  ++ newline :: newline ::
  py "Return ONLY the SQL query, with NO explanation, NO comments, and NO formatting. Do NOT include ```sql or any markdown. Only output the SQL statement.".

(** [question.lower() == 'exit'] *)
Definition is_exit (question : str) : bool :=
  if list_eq_dec ascii_dec (lower question) (py "exit") then true else false.

Section Loop.

Variable generate_content : list call -> str -> outcome str.
Variable execute : list call -> str -> outcome DataFrame.

(** The text [print(row)] writes for a row. *)
Variable show_row : list cell -> str.

Definition error_line (e : str) : output :=
  Print (newline :: py "Error: " ++ e ++ [newline]).

(** The body of the inner [try], with its [except]. *)
Definition turn (question : str) (done : list call)
  : list output * list call :=
  let prompt := sql_prompt question table_info in
  match generate_content done prompt with
  | Raised e => ([error_line e], done ++ [Generate prompt])
  | Returned text =>
      let sql_query := strip text in
      let cleaned_sql := clean_sql_query sql_query in
      let said :=
        [Print (newline :: py "Generated SQL Query: " ++ sql_query);
         Print (py "Cleaned SQL Query: " ++ cleaned_sql)] in
      let done' := (done ++ [Generate prompt]) ++ [Execute cleaned_sql] in
      match execute (done ++ [Generate prompt]) cleaned_sql with
      | Raised e => (said ++ [error_line e], done')
      | Returned result =>
          (said
             ++ [Print (newline :: py "Result:")]
             ++ match rows result with
                | [] => [Print (py "No results found.")]
                | _ :: _ => map (fun row => Print (show_row row)) (rows result)
                end
             ++ [Print []],
           done')
      end
  end.

(** [while True: question = input(...); ...]: [lines] is what the terminal
    still has to give. *)
Fixpoint loop (lines : list str) (done : list call)
  : list output * list call * stop :=
  match lines with
  | [] => ([Prompt (py "> ")], done, EndOfInput)
  | question :: rest =>
      if is_exit question then ([Prompt (py "> ")], done, Exit)
      else
        let (said, done') := turn question done in
        let '(more, done'', how) := loop rest done' in
        (Prompt (py "> ") :: said ++ more, done'', how)
  end.

End Loop.

(** The questions the loop takes up: the lines before the first one that
    says exit. *)
Fixpoint asked (lines : list str) : list str :=
  match lines with
  | [] => []
  | question :: rest => if is_exit question then [] else question :: asked rest
  end.

Definition banner : list output :=
  [Print (newline :: py "Chatbot is ready! Ask questions about the employees database.");
   Print (py "Available data: employee names, departments (HR, Engineering, Sales), and salaries");
   Print (py "Type 'exit' to quit." ++ [newline])].

Definition failed_to_initialize (e : str) : output :=
  Print (py "Failed to initialize the chatbot: " ++ e).

(** [main()]: [api_key] is [os.getenv] of the key, [probe] the liveness
    probe of a model, [setup_database] what building the employees table
    does, [generate_content] the behaviour of each model in the loop. *)
Definition main (api_key : option str)
    (probe : str -> str -> outcome (outcome str))
    (setup_database : outcome unit)
    (generate_content : str -> list call -> str -> outcome str)
    (execute : list call -> str -> outcome DataFrame)
    (show_row : list cell -> str) (lines : list str) : list output :=
  match api_key with
  | None | Some [] =>
      [Print (py "Error: GOOGLE_API_KEY not set. Please add it to your .env file.")]
  | Some (_ :: _) =>
      let (first, said1) :=
        Selection.try_model_verbose probe Selection.primary in
      let (model, said) :=
        match first with
        | Some m => (Some m, said1)
        | None =>
            let (second, said2) :=
              Selection.try_model_verbose probe Selection.secondary in
            (second, said1 ++ said2)
        end in
      map Print said
      ++ match model with
         | None =>
             [Print (py "No supported Gemini model is available for your API key. Please check your access or try a different key.")]
         | Some m =>
             match setup_database with
             | Raised e => [failed_to_initialize e]
             | Returned _ =>
                 let '(said, _, how) :=
                   loop (generate_content m) execute show_row lines [] in
                 banner ++ said
                 ++ match how with
                    | Exit => []
                    | EndOfInput => [failed_to_initialize eof_text]
                    end
             end
         end
  end.

End Chatbot.

(** ** Counting calls *)

Module Calls.

Definition is_generate (c : call) : bool :=
  match c with Generate _ => true | Execute _ => false end.

Definition is_execute (c : call) : bool :=
  match c with Generate _ => false | Execute _ => true end.

Definition generations (cs : list call) : nat :=
  List.length (filter is_generate cs).

Definition executions (cs : list call) : nat :=
  List.length (filter is_execute cs).

(** A text is a piece of another: it occurs in it, in one run. *)
Definition piece (t s : str) : Prop := exists a b : str, s = a ++ t ++ b.

(** A statement as the sanitizer hands it on: blank, or one non-empty line
    with no white space at either end. *)
Definition one_line_or_blank (q : str) : Prop :=
  forallb isspace q = true
  \/ (q <> [] /\ single_line q = true /\ trimmed q = true).

End Calls.

Import Calls.

(** ** Further concrete runs *)

Module Runs.

(** The primary model is not served, the secondary one answers. *)
Definition probe_fallback (model_name _ : str) : outcome (outcome str) :=
  if list_eq_dec ascii_dec model_name Selection.primary
  then Raised (py "404 model not found")
  else Returned (Returned (py "Hello!")).

(** The probe returns a response that has no text. *)
Definition probe_blocked (_ _ : str) : outcome (outcome str) :=
  Returned (Raised (py "The response was blocked."))%string.

(** The text of the attribute error, up to the key. *)
Definition attribute_text (key : str) : str :=
  py "st.session_state has no attribute " ++ key.

(** A file that is not a table. *)
Definition broken_file : App.uploaded_file :=
  {| App.name := py "notes.csv";
     App.read_csv := Raised (py "Error tokenizing data");
     App.to_sql := Returned tt |}.

(** A file with two columns. *)
Definition sales_file : App.uploaded_file :=
  {| App.name := py "my sales.csv";
     App.read_csv := Returned [(py "city", py "object"); (py "amount", py "int64")];
     App.to_sql := Returned tt |}.

(** Every model answers its probe. *)
Definition probe_ok (_ _ : str) : outcome (outcome str) :=
  Returned (Returned (py "Hello!")).

(** Every table is shown. *)
Definition show_ok (_ : DataFrame) : outcome unit := Returned tt.

(** A table is shown unless two of its columns have one name. *)
Definition show_unless_duplicate (df : DataFrame) : outcome unit :=
  if list_eq_dec (list_eq_dec ascii_dec) (nodup (list_eq_dec ascii_dec)
                                            (columns df)) (columns df)
  then Returned tt
  else Raised (py "Duplicate column names found").

(** The text of the one row of the count. *)
Definition show_count (_ : list cell) : str := py "(5,)".

(** The session after the first run of the script. *)
Definition started : App.session :=
  {| App.db_ready := Some true;
     App.table_name := Some (py "orders");
     App.table_info := Some Schema.default_table_info;
     App.history := Some [] |}.

End Runs.

(** * Properties *)

(** ** Stripping *)

Section Strip.

Variable p : ascii -> bool.

Lemma lstrip_by_split (s : str) :
  exists pre, s = pre ++ lstrip_by p s /\ forallb p pre = true.
Proof.
  induction s as [|c r IH]; simpl.
  - exists []. split; reflexivity.
  - destruct (p c) eqn:Hc.
    + destruct IH as [pre [E F]]. exists (c :: pre). simpl.
      rewrite Hc, F. split; [now rewrite <- E | reflexivity].
    + exists []. split; reflexivity.
Qed.

Lemma lstrip_by_head (s : str) : starts_in p (lstrip_by p s) = false.
Proof.
  induction s as [|c r IH]; simpl; [reflexivity|].
  destruct (p c) eqn:Hc; [exact IH | simpl; exact Hc].
Qed.

Lemma lstrip_by_id (s : str) : starts_in p s = false -> lstrip_by p s = s.
Proof.
  destruct s as [|c r]; simpl; [reflexivity|].
  intros ->. reflexivity.
Qed.

Lemma lstrip_by_app (pre s : str) :
  forallb p pre = true -> lstrip_by p (pre ++ s) = lstrip_by p s.
Proof.
  induction pre as [|c r IH]; simpl; [reflexivity|].
  intros H. apply andb_true_iff in H as [Hc Hr]. rewrite Hc. auto.
Qed.

Lemma lstrip_by_nil (s : str) : lstrip_by p s = [] -> forallb p s = true.
Proof.
  induction s as [|c r IH]; simpl; [reflexivity|].
  destruct (p c); [exact IH | discriminate].
Qed.

Lemma rstrip_by_split (s : str) :
  exists suf, s = rstrip_by p s ++ suf /\ forallb p suf = true.
Proof.
  unfold rstrip_by.
  destruct (lstrip_by_split (rev s)) as [pre [E F]].
  exists (rev pre). split.
  - rewrite <- rev_app_distr, <- E, rev_involutive. reflexivity.
  - rewrite forallb_forall in *. intros c Hc. apply F, in_rev, Hc.
Qed.

Lemma rstrip_by_last (s : str) : ends_in p (rstrip_by p s) = false.
Proof.
  unfold ends_in, rstrip_by. rewrite rev_involutive. apply lstrip_by_head.
Qed.

Lemma rstrip_by_id (s : str) : ends_in p s = false -> rstrip_by p s = s.
Proof.
  unfold ends_in, rstrip_by. intros H.
  rewrite (lstrip_by_id _ H). apply rev_involutive.
Qed.

Lemma rstrip_by_head (s : str) :
  starts_in p s = false -> starts_in p (rstrip_by p s) = false.
Proof.
  intros H. destruct (rstrip_by_split s) as [suf [E _]].
  destruct (rstrip_by p s) as [|c r] eqn:R; [reflexivity|].
  rewrite E in H. exact H.
Qed.

Lemma strip_by_split (s : str) :
  exists pre suf,
    s = pre ++ strip_by p s ++ suf
    /\ forallb p pre = true /\ forallb p suf = true.
Proof.
  unfold strip_by.
  destruct (lstrip_by_split s) as [pre [E F]].
  destruct (rstrip_by_split (lstrip_by p s)) as [suf [E' F']].
  exists pre, suf. repeat split; try assumption.
  rewrite <- E'. exact E.
Qed.

Lemma strip_by_head (s : str) : starts_in p (strip_by p s) = false.
Proof. apply rstrip_by_head, lstrip_by_head. Qed.

Lemma strip_by_last (s : str) : ends_in p (strip_by p s) = false.
Proof. apply rstrip_by_last. Qed.

Lemma strip_by_id (s : str) :
  starts_in p s = false -> ends_in p s = false -> strip_by p s = s.
Proof.
  intros H1 H2. unfold strip_by.
  rewrite (lstrip_by_id _ H1). apply rstrip_by_id, H2.
Qed.

Lemma strip_by_idem (s : str) : strip_by p (strip_by p s) = strip_by p s.
Proof. apply strip_by_id; [apply strip_by_head | apply strip_by_last]. Qed.

Lemma strip_by_In (s : str) (c : ascii) : In c (strip_by p s) -> In c s.
Proof.
  destruct (strip_by_split s) as [pre [suf [E _]]].
  intros H. rewrite E. apply in_or_app. right. apply in_or_app. left. exact H.
Qed.

Lemma strip_by_nil (s : str) : strip_by p s = [] -> forallb p s = true.
Proof.
  intros H. destruct (strip_by_split s) as [pre [suf [E [F1 F2]]]].
  rewrite H in E. rewrite E. simpl. rewrite forallb_app, F1, F2. reflexivity.
Qed.

End Strip.

(** ** Lines *)

Lemma islinebreak_isspace (c : ascii) :
  islinebreak c = true -> isspace c = true.
Proof.
  destruct c as [[] [] [] [] [] [] [] []]; vm_compute; intros H;
    first [reflexivity | discriminate H].
Qed.

Lemma after_break_cases (c : ascii) (r : str) :
  after_break c r = r \/ r = newline :: after_break c r.
Proof.
  destruct r as [|d r']; simpl; [now left|].
  destruct (Ascii.eqb c cr && Ascii.eqb d newline) eqn:E; [right | now left].
  apply andb_true_iff in E as [_ E]. apply Ascii.eqb_eq in E. now subst d.
Qed.

Lemma splitlines_from_newline (r : str) :
  splitlines_from [] (newline :: r) = [] :: splitlines_from [] r.
Proof. destruct r; reflexivity. Qed.

Lemma splitlines_after_break (c : ascii) (r l : str) :
  In l (splitlines_from [] (after_break c r)) -> In l (splitlines_from [] r).
Proof.
  destruct (after_break_cases c r) as [E | E].
  - now rewrite E.
  - intros H. rewrite E, splitlines_from_newline. now right.
Qed.

Lemma splitlines_after_break_inv (c : ascii) (r l : str) :
  In l (splitlines_from [] r) ->
  l = [] \/ In l (splitlines_from [] (after_break c r)).
Proof.
  destruct (after_break_cases c r) as [E | E].
  - rewrite E. now right.
  - intros H. rewrite E, splitlines_from_newline in H.
    destruct H as [H | H]; [now left | now right].
Qed.

(** No line of [splitlines] holds a line boundary. *)
Lemma splitlines_from_no_break (s cur : str) :
  (forall c, In c cur -> islinebreak c = false) ->
  forall l, In l (splitlines_from cur s) ->
  forall c, In c l -> islinebreak c = false.
Proof.
  revert cur. induction s as [|a r IH]; intros cur Hcur l Hl c Hc.
  - destruct cur as [|b q]; simpl in Hl; [contradiction|].
    destruct Hl as [<- | []]. apply Hcur, in_rev, Hc.
  - simpl in Hl. destruct (islinebreak a) eqn:Ha.
    + destruct Hl as [<- | Hl].
      * apply Hcur, in_rev, Hc.
      * apply splitlines_after_break in Hl.
        apply (IH [] (fun _ (F : In _ []) => match F with end) l Hl c Hc).
    + apply (IH (a :: cur)) with (l := l); try assumption.
      intros x [<- | Hx]; [exact Ha | apply Hcur, Hx].
Qed.

(** A text without a line boundary is one line. *)
Lemma splitlines_from_one_line (s cur : str) :
  (forall c, In c s -> islinebreak c = false) ->
  cur ++ s <> [] ->
  splitlines_from cur s = [rev cur ++ s].
Proof.
  revert cur. induction s as [|a r IH]; intros cur Hs Hne.
  - destruct cur as [|b q]; [now elim Hne|].
    simpl. now rewrite app_nil_r.
  - simpl. rewrite (Hs a (or_introl eq_refl)).
    rewrite IH.
    + simpl. now rewrite <- app_assoc.
    + intros c Hc. apply Hs. now right.
    + discriminate.
Qed.

(** Every character of a text is a line boundary or lies on a line. *)
Lemma splitlines_from_cover (s cur : str) :
  (forall l, In l (splitlines_from cur s) -> forallb isspace l = true) ->
  forall c, In c cur \/ In c s -> isspace c = true.
Proof.
  revert cur. induction s as [|a r IH]; intros cur H c Hc.
  - destruct Hc as [Hc | []].
    destruct cur as [|b q]; [contradiction|].
    specialize (H _ (or_introl eq_refl)).
    rewrite forallb_forall in H. apply H. now apply -> in_rev.
  - simpl in H. destruct (islinebreak a) eqn:Ha.
    + destruct Hc as [Hc | [<- | Hc]].
      * specialize (H _ (or_introl eq_refl)).
        rewrite forallb_forall in H. apply H. now apply -> in_rev.
      * now apply islinebreak_isspace.
      * apply (IH []); [|now right].
        intros l Hl.
        destruct (splitlines_after_break_inv a _ _ Hl) as [-> | Hl'];
          [reflexivity | apply H; now right].
    + apply (IH (a :: cur)); [exact H|].
      destruct Hc as [Hc | [<- | Hc]];
        [left; now right | left; now left | now right].
Qed.

Lemma filter_nil_inv {A : Type} (f : A -> bool) (l : list A) :
  filter f l = [] -> forall x, In x l -> f x = false.
Proof.
  induction l as [|a r IH]; simpl; intros H x Hx; [contradiction|].
  destruct (f a) eqn:Fa; [discriminate|].
  destruct Hx as [<- | Hx]; [exact Fa | now apply IH].
Qed.

Lemma truthy_false (s : str) : truthy s = false -> s = [].
Proof. destruct s; [reflexivity | discriminate]. Qed.

(** What [nonempty_lines] yields: non-empty trimmed lines. *)
Lemma nonempty_lines_In (s l : str) :
  In l (nonempty_lines s) ->
  l <> []
  /\ starts_in isspace l = false
  /\ ends_in isspace l = false
  /\ (forall c, In c l -> islinebreak c = false).
Proof.
  unfold nonempty_lines. intros H.
  apply filter_In in H as [H T].
  apply in_map_iff in H as [l0 [<- H0]].
  repeat split.
  - intros E. unfold strip in *. rewrite E in T. discriminate.
  - apply strip_by_head.
  - apply strip_by_last.
  - intros c Hc. apply strip_by_In in Hc.
    apply (@splitlines_from_no_break s []) with (l := l0); try assumption.
    intros ? [].
Qed.

Lemma nonempty_lines_one_line (s : str) :
  s <> [] ->
  (forall c, In c s -> islinebreak c = false) ->
  starts_in isspace s = false ->
  ends_in isspace s = false ->
  nonempty_lines s = [s].
Proof.
  intros Hne Hb H1 H2. unfold nonempty_lines, splitlines.
  rewrite splitlines_from_one_line by (assumption || (simpl; assumption)).
  simpl. unfold strip. rewrite strip_by_id by assumption.
  destruct s; [now elim Hne | reflexivity].
Qed.

Lemma nonempty_lines_nil (s : str) :
  nonempty_lines s = [] -> forallb isspace s = true.
Proof.
  unfold nonempty_lines, splitlines. intros H.
  apply forallb_forall. intros c Hc.
  apply (@splitlines_from_cover s []); [|now right].
  intros l Hl. apply strip_by_nil, truthy_false.
  apply (filter_nil_inv _ _ H). apply in_map, Hl.
Qed.

(** ** Line selection *)

Lemma select_line_nil (d : str) : select_line [] d = d.
Proof. reflexivity. Qed.

Lemma select_line_In (lines : list str) (d : str) :
  lines <> [] -> In (select_line lines d) lines.
Proof.
  unfold select_line. intros Hne.
  destruct (find is_statement lines) as [l|] eqn:F.
  - apply find_some in F. tauto.
  - destruct lines; [now elim Hne | now left].
Qed.

(** [find] returns the first element that passes the test. *)
Lemma find_first {A : Type} (f : A -> bool) (l : list A) (x : A) :
  find f l = Some x ->
  exists pre post,
    l = pre ++ x :: post /\ f x = true /\ forall y, In y pre -> f y = false.
Proof.
  induction l as [|a r IH]; simpl; [discriminate|].
  destruct (f a) eqn:Fa.
  - intros E. injection E as ->. exists [], r. repeat split; auto.
    intros y [].
  - intros E. destruct (IH E) as [pre [post [-> [Fx Hpre]]]].
    exists (a :: pre), post. repeat split; auto.
    intros y [<- | Hy]; auto.
Qed.

Lemma find_exists {A : Type} (f : A -> bool) (l : list A) :
  (exists x, In x l /\ f x = true) -> exists y, find f l = Some y.
Proof.
  intros [x [Hx Fx]]. destruct (find f l) as [y|] eqn:F; [now exists y|].
  rewrite (find_none _ _ F _ Hx) in Fx. discriminate.
Qed.

(** ** Character classes *)

Lemma in_strip_chars_cases (c : ascii) :
  in_strip_chars c = true -> is_quote c = true \/ isspace c = true.
Proof.
  destruct c as [[] [] [] [] [] [] [] []]; vm_compute; intros H;
    first [discriminate H | now left | now right].
Qed.

Lemma is_quote_strip_char (c : ascii) :
  is_quote c = true -> in_strip_chars c = true.
Proof.
  destruct c as [[] [] [] [] [] [] [] []]; vm_compute; intros H;
    first [reflexivity | discriminate H].
Qed.

Lemma is_fence_quote (c1 c2 c3 : ascii) :
  is_fence c1 c2 c3 = true ->
  is_quote c1 = true /\ is_quote c2 = true /\ is_quote c3 = true.
Proof.
  unfold is_fence. intros H.
  apply orb_true_iff in H as [H | H];
    apply andb_true_iff in H as [H H3];
    apply andb_true_iff in H as [H1 H2];
    apply Ascii.eqb_eq in H1, H2, H3; subst; repeat split; reflexivity.
Qed.

Lemma starts_in_false_or (q p1 p2 : ascii -> bool) (s : str) :
  (forall c, q c = true -> p1 c = true \/ p2 c = true) ->
  starts_in p1 s = false -> starts_in p2 s = false -> starts_in q s = false.
Proof.
  intros H H1 H2. destruct s as [|c r]; [reflexivity|]. simpl in *.
  destruct (q c) eqn:Q; [|reflexivity].
  destruct (H c Q) as [E | E]; congruence.
Qed.

Lemma starts_in_false_imp (q p : ascii -> bool) (s : str) :
  (forall c, q c = true -> p c = true) ->
  starts_in p s = false -> starts_in q s = false.
Proof.
  intros H H1. destruct s as [|c r]; [reflexivity|]. simpl in *.
  destruct (q c) eqn:Q; [|reflexivity]. rewrite (H c Q) in H1. discriminate.
Qed.

Lemma tag_matches_lower (c1 c2 c3 : ascii) (r : str) :
  ieq "s" c1 && ieq "q" c2 && ieq "l" c3
  = startswith (py "sql") (lower (c1 :: c2 :: c3 :: r)).
Proof.
  unfold ieq. simpl.
  rewrite andb_true_r, andb_assoc.
  rewrite (Ascii.eqb_sym (lower_char c1)), (Ascii.eqb_sym (lower_char c2)),
    (Ascii.eqb_sym (lower_char c3)).
  reflexivity.
Qed.

Lemma isspace_not_quote (c : ascii) : isspace c = true -> is_quote c = false.
Proof.
  destruct c as [[] [] [] [] [] [] [] []]; vm_compute; intros H;
    first [reflexivity | discriminate H].
Qed.

Lemma letter_s_plain (c : ascii) :
  ieq "s" c = true -> is_quote c = false /\ isspace c = false.
Proof.
  destruct c as [[] [] [] [] [] [] [] []]; vm_compute; intros H;
    first [discriminate H | split; reflexivity].
Qed.

Lemma lstrip_by_length (p : ascii -> bool) (s : str) :
  List.length (lstrip_by p s) <= List.length s.
Proof.
  destruct (lstrip_by_split p s) as [pre [E _]].
  rewrite E at 2. rewrite length_app. lia.
Qed.

(** ** Texts the three clean-up steps leave alone *)

Lemma fence_marker_none (s : str) :
  starts_in is_quote s = false -> fence_marker s = None.
Proof.
  destruct s as [|c1 [|c2 [|c3 r]]]; try reflexivity. simpl. intros H.
  destruct (is_fence c1 c2 c3) eqn:F; [|reflexivity].
  apply is_fence_quote in F as [F _]. congruence.
Qed.

Lemma sub_trailing_id (s : str) :
  ends_in in_strip_chars s = false -> sub_trailing s = s.
Proof.
  unfold ends_in, sub_trailing.
  destruct (rev s) as [|c3 [|c2 [|c1 r]]]; try reflexivity. simpl. intros H.
  destruct (is_fence c1 c2 c3) eqn:F.
  - apply is_fence_quote in F as [_ [_ F]]. apply is_quote_strip_char in F.
    congruence.
  - destruct r as [|c0 r']; [reflexivity|].
    destruct (Ascii.eqb c3 newline) eqn:E; [|reflexivity].
    apply Ascii.eqb_eq in E. subst c3. discriminate H.
Qed.

Lemma stripped_id (s : str) :
  starts_in in_strip_chars s = false ->
  ends_in in_strip_chars s = false ->
  tag_ws s = None ->
  stripped s = s.
Proof.
  intros H1 H2 T. unfold stripped, sub_leading, match_leading.
  rewrite (fence_marker_none _
             (@starts_in_false_imp is_quote in_strip_chars s
                is_quote_strip_char H1)).
  rewrite T, (sub_trailing_id _ H2).
  now apply strip_by_id.
Qed.

Lemma tag_ws_blank (s : str) : forallb isspace s = true -> tag_ws s = None.
Proof.
  intros H. unfold tag_ws.
  rewrite <- (app_nil_r s), (lstrip_by_app _ _ [] H). reflexivity.
Qed.

Lemma tag_ws_settled (s : str) :
  starts_in isspace s = false ->
  startswith (py "sql") (lower s) = false ->
  tag_ws s = None.
Proof.
  intros H L. unfold tag_ws. rewrite (lstrip_by_id _ _ H).
  destruct s as [|c1 [|c2 [|c3 r]]]; try reflexivity.
  rewrite (tag_matches_lower c1 c2 c3 r), L. reflexivity.
Qed.

(** The sanitizer returns a trimmed non-empty line it has scanned, or, when
    there is none, the stripped text, which is then blank. *)
Lemma clean_sql_query_cases (raw : str) :
  (nonempty_lines (stripped raw) = []
   /\ clean_sql_query raw = stripped raw
   /\ forallb isspace (stripped raw) = true)
  \/ In (clean_sql_query raw) (nonempty_lines (stripped raw)).
Proof.
  unfold clean_sql_query.
  destruct (nonempty_lines (stripped raw)) as [|l ls] eqn:E.
  - left. repeat split. now apply nonempty_lines_nil.
  - right. apply select_line_In. discriminate.
Qed.

Lemma match_leading_none_tag (q : str) :
  match_leading q = None -> tag_ws q = None.
Proof.
  unfold match_leading. destruct (fence_marker q) as [t|]; [|auto].
  destruct (tag_ws t); [discriminate | auto].
Qed.

Lemma leading_match_false (q : str) :
  leading_match q = false -> match_leading q = None.
Proof.
  unfold leading_match. destruct (match_leading q); [discriminate | reflexivity].
Qed.

Lemma clean_sql_query_line (q : str) :
  q <> [] ->
  (forall c, In c q -> islinebreak c = false) ->
  starts_in isspace q = false ->
  ends_in isspace q = false ->
  settled q = true ->
  clean_sql_query q = q.
Proof.
  intros Hne Hb H1 H2 S. unfold settled in S.
  apply andb_true_iff in S as [S Q2]. apply andb_true_iff in S as [L Q1].
  apply negb_true_iff in L, Q1, Q2.
  assert (E : stripped q = q).
  { apply stripped_id.
    - exact (@starts_in_false_or in_strip_chars is_quote isspace q
               in_strip_chars_cases Q1 H1).
    - exact (@starts_in_false_or in_strip_chars is_quote isspace (rev q)
               in_strip_chars_cases Q2 H2).
    - now apply match_leading_none_tag, leading_match_false. }
  unfold clean_sql_query. rewrite E, nonempty_lines_one_line by assumption.
  unfold select_line. simpl. now destruct (is_statement q).
Qed.

(** ** The sanitizer: idempotence *)

(** C1, as the specification states it, fails: a text that begins with the
    tag sql twice loses it one run at a time. *)
Lemma sanitize_not_idempotent :
  clean_sql_query (clean_sql_query (py "sqlsqlite"))
  <> clean_sql_query (py "sqlsqlite").
Proof. vm_compute. discriminate. Qed.

(** The same with a quoted literal on a second line: the first run keeps the
    closing quote of the line it selects, the second run strips it. *)
Example sanitize_not_idempotent_quote :
  clean_sql_query (py "SELECT 'a'" ++ newline :: py "-- done")
  = py "SELECT 'a'"
  /\ clean_sql_query (py "SELECT 'a'") = py "SELECT 'a".
Proof. split; vm_compute; reflexivity. Qed.

(** C1 (amended): sanitize(sanitize(x)) = sanitize(x) for every text x whose
    sanitized form is not matched at its head by the first pattern of the
    sanitizer (the optional fence, white space and the tag sql under
    [re.IGNORECASE]) and has no backtick, single quote or double quote at
    either end. *)
Theorem sanitize_idempotent_when_settled (raw : str) :
  settled (clean_sql_query raw) = true ->
  clean_sql_query (clean_sql_query raw) = clean_sql_query raw.
Proof.
  intros S. destruct (clean_sql_query_cases raw) as [[E [C B]] | H].
  - rewrite C.
    assert (F : stripped (stripped raw) = stripped raw).
    { apply stripped_id.
      - apply strip_by_head.
      - apply strip_by_last.
      - now apply tag_ws_blank. }
    unfold clean_sql_query. rewrite F, E. reflexivity.
  - apply nonempty_lines_In in H as [Hne [H1 [H2 Hb]]].
    now apply clean_sql_query_line.
Qed.

Lemma sanitize_idempotent_witness :
  settled (clean_sql_query (py "```sql SELECT 1 ```")) = true
  /\ clean_sql_query (clean_sql_query (py "```sql SELECT 1 ```"))
     = clean_sql_query (py "```sql SELECT 1 ```").
Proof.
  split; [reflexivity|].
  apply (sanitize_idempotent_when_settled (py "```sql SELECT 1 ```")).
  reflexivity.
Defined.

(** *** The condition is also necessary *)

Lemma rstrip_by_length (p : ascii -> bool) (s : str) :
  List.length (rstrip_by p s) <= List.length s.
Proof.
  unfold rstrip_by. rewrite length_rev.
  pose proof (lstrip_by_length p (rev s)) as L. now rewrite length_rev in L.
Qed.

Lemma strip_by_length (p : ascii -> bool) (s : str) :
  List.length (strip_by p s) <= List.length s.
Proof.
  unfold strip_by.
  pose proof (rstrip_by_length p (lstrip_by p s)).
  pose proof (lstrip_by_length p s). lia.
Qed.

Lemma lstrip_by_shrinks (p : ascii -> bool) (s : str) :
  starts_in p s = true -> List.length (lstrip_by p s) < List.length s.
Proof.
  destruct s as [|c r]; simpl; [discriminate|]. intros ->.
  pose proof (lstrip_by_length p r). lia.
Qed.

Lemma strip_by_shrinks (p : ascii -> bool) (s : str) :
  starts_in p s = true \/ ends_in p s = true ->
  List.length (strip_by p s) < List.length s.
Proof.
  unfold strip_by. intros [H | H].
  - pose proof (lstrip_by_shrinks p s H).
    pose proof (rstrip_by_length p (lstrip_by p s)). lia.
  - destruct (lstrip_by_split p s) as [[|a pre] [E _]].
    + simpl in E. rewrite <- E.
      unfold rstrip_by. rewrite length_rev.
      pose proof (lstrip_by_shrinks p (rev s) H) as L.
      now rewrite length_rev in L.
    + pose proof (rstrip_by_length p (lstrip_by p s)).
      rewrite E at 2. rewrite length_app. simpl. lia.
Qed.

Lemma tag_ws_length (s r : str) :
  tag_ws s = Some r -> List.length r + 3 <= List.length s.
Proof.
  unfold tag_ws. pose proof (lstrip_by_length isspace s) as L.
  destruct (lstrip_by isspace s) as [|c1 [|c2 [|c3 t]]]; try discriminate.
  destruct (ieq "s" c1 && ieq "q" c2 && ieq "l" c3); [|discriminate].
  intros E. injection E as <-.
  pose proof (lstrip_by_length isspace t). simpl in L. lia.
Qed.

Lemma fence_marker_length (s r : str) :
  fence_marker s = Some r -> List.length r <= List.length s.
Proof.
  destruct s as [|c1 [|c2 [|c3 t]]]; try discriminate. simpl.
  destruct (is_fence c1 c2 c3); [|discriminate].
  intros E. injection E as <-. lia.
Qed.

Lemma sub_leading_length (s : str) :
  sub_leading s = s \/ List.length (sub_leading s) < List.length s.
Proof.
  unfold sub_leading, match_leading.
  destruct (fence_marker s) as [t|] eqn:F.
  - destruct (tag_ws t) as [r|] eqn:T.
    + right. apply tag_ws_length in T. apply fence_marker_length in F. lia.
    + destruct (tag_ws s) as [r|] eqn:T'; [right | now left].
      apply tag_ws_length in T'. lia.
  - destruct (tag_ws s) as [r|] eqn:T'; [right | now left].
    apply tag_ws_length in T'. lia.
Qed.

Lemma sub_trailing_length (s : str) :
  sub_trailing s = s \/ List.length (sub_trailing s) < List.length s.
Proof.
  unfold sub_trailing. pose proof (length_rev s) as L.
  destruct (rev s) as [|c3 [|c2 [|c1 r]]]; try (now left).
  destruct (is_fence c1 c2 c3).
  - right. rewrite length_rev. simpl in L. lia.
  - destruct r as [|c0 r']; [now left|].
    destruct (Ascii.eqb c3 newline && is_fence c0 c1 c2); [right | now left].
    rewrite length_rev. simpl in *. lia.
Qed.

Lemma splitlines_from_length (s cur l : str) :
  In l (splitlines_from cur s) ->
  List.length l <= List.length cur + List.length s.
Proof.
  revert cur. induction s as [|a r IH]; intros cur H.
  - destruct cur as [|b q]; simpl in H; [contradiction|].
    destruct H as [<- | []].
    pose proof (length_rev (b :: q)) as R. simpl in R |- *. lia.
  - simpl in H. destruct (islinebreak a).
    + destruct H as [<- | H].
      * rewrite length_rev. lia.
      * apply splitlines_after_break, IH in H. simpl in *. lia.
    + apply IH in H. simpl in *. lia.
Qed.

Lemma clean_sql_query_length (s : str) :
  List.length (clean_sql_query s) <= List.length (stripped s).
Proof.
  destruct (clean_sql_query_cases s) as [[_ [C _]] | H].
  - rewrite C. lia.
  - unfold nonempty_lines in H. apply filter_In in H as [H _].
    apply in_map_iff in H as [l0 [E H0]]. rewrite <- E.
    apply splitlines_from_length in H0.
    pose proof (strip_by_length isspace l0). unfold strip. simpl in H0. lia.
Qed.

Lemma match_leading_length (s r : str) :
  match_leading s = Some r -> List.length r + 3 <= List.length s.
Proof.
  unfold match_leading.
  destruct (fence_marker s) as [t|] eqn:F.
  - destruct (tag_ws t) as [u|] eqn:T.
    + intros E. injection E as <-.
      apply tag_ws_length in T. apply fence_marker_length in F. lia.
    + apply tag_ws_length.
  - apply tag_ws_length.
Qed.

Lemma sub_trailing_le (s : str) :
  List.length (sub_trailing s) <= List.length s.
Proof. destruct (sub_trailing_length s) as [-> | L]; lia. Qed.

Lemma stripped_shrinks (q : str) :
  settled q = false -> List.length (stripped q) < List.length q.
Proof.
  unfold settled, stripped. intros S.
  pose proof (strip_by_length in_strip_chars (sub_trailing (sub_leading q)))
    as L3.
  pose proof (sub_trailing_le (sub_leading q)) as L2.
  unfold leading_match, sub_leading in *.
  destruct (match_leading q) as [r|] eqn:T.
  - apply match_leading_length in T. lia.
  - cbn iota in *.
    destruct (sub_trailing_length q) as [E2 | L2']; [|lia].
    rewrite E2 in *. apply strip_by_shrinks.
    simpl in S. apply andb_false_iff in S as [S | S];
      apply negb_false_iff in S; [left | right].
    + destruct q as [|c ?]; [discriminate S|].
      simpl in *. now apply is_quote_strip_char.
    + unfold ends_in in *. destruct (rev q) as [|c ?]; [discriminate S|].
      simpl in *. now apply is_quote_strip_char.
Qed.

(** A text the sanitizer returns as it is has nothing left to remove at its
    ends, so a second run changes a sanitized text exactly when that text is
    not settled. *)
Lemma sanitize_fixed_only_when_settled (q : str) :
  clean_sql_query q = q -> settled q = true.
Proof.
  intros E. destruct (settled q) eqn:S; [reflexivity|].
  pose proof (stripped_shrinks _ S). pose proof (clean_sql_query_length q).
  rewrite E in *. lia.
Qed.

(** ** The sanitizer: shape of the result *)

(** C3, as the specification states it, fails: a text without a statement
    line comes back as it is, and does not begin with a keyword. *)
Lemma sanitize_breaks_invariant :
  ~ spec_SanitizedQuery (clean_sql_query (py "just some text")).
Proof. intros [_ [_ [H _]]]. vm_compute in H. discriminate H. Qed.

(** The empty text comes back empty, and a backtick at the end of the
    selected line stays. *)
Example sanitize_empty : clean_sql_query [] = [].
Proof. reflexivity. Qed.

Example sanitize_keeps_inner_backtick :
  clean_sql_query (py "SELECT 1`" ++ newline :: py "-- done") = py "SELECT 1`".
Proof. vm_compute. reflexivity. Qed.

(** C3 (amended): for every input text that leaves the sanitizer a line to
    scan (a non-empty trimmed line of the text after the two fence removals
    and the strip), the output is a non-empty single-line string with no
    white space at either end, and its lowercased form begins with one of
    select, insert, update, delete, with exactly when that of some scanned
    line does. *)
Theorem sanitize_statement_shape (raw : str) :
  has_line raw = true ->
  clean_sql_query raw <> []
  /\ single_line (clean_sql_query raw) = true
  /\ trimmed (clean_sql_query raw) = true
  /\ is_statement (clean_sql_query raw) = has_statement_line raw.
Proof.
  unfold has_line. intros L.
  destruct (clean_sql_query_cases raw) as [[E _] | Hin];
    [rewrite E in L; discriminate L|].
  assert (St : is_statement (clean_sql_query raw) = has_statement_line raw).
  { unfold has_statement_line.
    destruct (existsb is_statement (nonempty_lines (stripped raw))) eqn:X.
    - apply existsb_exists in X. apply find_exists in X as [q F].
      unfold clean_sql_query, select_line. rewrite F.
      now apply find_some in F.
    - destruct (is_statement (clean_sql_query raw)) eqn:Y; [|reflexivity].
      rewrite <- X. symmetry. apply existsb_exists.
      now exists (clean_sql_query raw). }
  apply nonempty_lines_In in Hin as [Hne [H1 [H2 Hb]]].
  repeat split; try assumption.
  - apply forallb_forall. intros c Hc. now rewrite (Hb c Hc).
  - unfold trimmed. now rewrite H1, H2.
Qed.

Lemma sanitize_statement_shape_witness :
  has_line (py "Here it is:" ++ newline :: py "  Select 1  ") = true
  /\ clean_sql_query (py "Here it is:" ++ newline :: py "  Select 1  ") <> []
  /\ single_line
       (clean_sql_query (py "Here it is:" ++ newline :: py "  Select 1  "))
     = true
  /\ trimmed
       (clean_sql_query (py "Here it is:" ++ newline :: py "  Select 1  "))
     = true
  /\ is_statement
       (clean_sql_query (py "Here it is:" ++ newline :: py "  Select 1  "))
     = has_statement_line (py "Here it is:" ++ newline :: py "  Select 1  ").
Proof.
  split; [reflexivity|].
  exact (sanitize_statement_shape
           (py "Here it is:" ++ newline :: py "  Select 1  ") eq_refl).
Defined.

(** Without a line to scan the output is the stripped text, and it is
    blank. *)
Lemma sanitize_blank (raw : str) :
  has_line raw = false ->
  clean_sql_query raw = stripped raw
  /\ forallb isspace (clean_sql_query raw) = true.
Proof.
  unfold has_line. intros L.
  destruct (clean_sql_query_cases raw) as [[_ [C B]] | Hin].
  - rewrite C. now split.
  - destruct (nonempty_lines (stripped raw)); [contradiction | discriminate].
Qed.

(** ** The sanitizer: line selection *)

(** C4: when no scanned line begins with a keyword the sanitizer returns the
    first non-empty trimmed line of the stripped text, and the stripped text
    itself when it has no such line. *)
Theorem sanitize_fallback :
  (forall raw : str,
      has_statement_line raw = false ->
      clean_sql_query raw
      = match nonempty_lines (stripped raw) with
        | line :: _ => line
        | [] => stripped raw
        end)
  /\ clean_sql_query (py "just some text") = py "just some text".
Proof.
  split; [|vm_compute; reflexivity].
  intros raw H. unfold has_statement_line in H.
  unfold clean_sql_query, select_line.
  destruct (find is_statement (nonempty_lines (stripped raw))) as [q|] eqn:F;
    [|reflexivity].
  apply find_some in F as [Hin St].
  assert (T : existsb is_statement (nonempty_lines (stripped raw)) = true)
    by (apply existsb_exists; now exists q).
  congruence.
Qed.

Lemma sanitize_fallback_witness :
  has_statement_line (py "-- note" ++ newline :: py "see table t") = false
  /\ clean_sql_query (py "-- note" ++ newline :: py "see table t")
     = py "-- note".
Proof.
  split; [reflexivity|].
  rewrite (proj1 sanitize_fallback
             (py "-- note" ++ newline :: py "see table t") eq_refl).
  reflexivity.
Defined.

(** C5: when some scanned line begins with a keyword the sanitizer returns
    the first such line, whatever lines come before it. *)
Theorem sanitize_keyword_priority :
  (forall raw : str,
      has_statement_line raw = true ->
      exists before after : list str,
        nonempty_lines (stripped raw)
        = before ++ clean_sql_query raw :: after
        /\ is_statement (clean_sql_query raw) = true
        /\ forall line, In line before -> is_statement line = false)
  /\ clean_sql_query (py "-- comment" ++ newline :: py "SELECT * FROM t")
     = py "SELECT * FROM t".
Proof.
  split; [|vm_compute; reflexivity].
  intros raw H. unfold has_statement_line in H.
  apply existsb_exists in H. apply find_exists in H as [q F].
  assert (E : clean_sql_query raw = q).
  { unfold clean_sql_query, select_line. now rewrite F. }
  rewrite E. apply find_first in F as [pre [post [L [St Hpre]]]].
  exists pre, post. repeat split; assumption.
Qed.

Lemma sanitize_keyword_priority_witness :
  has_statement_line
    (py "Sure!" ++ newline :: py "so:" ++ newline :: py "with a as (select 1) select * from a")
  = true
  /\ exists before after : list str,
       nonempty_lines
         (stripped
            (py "Sure!" ++ newline :: py "so:" ++ newline
                :: py "with a as (select 1) select * from a"))
       = before
           ++ clean_sql_query
                (py "Sure!" ++ newline :: py "so:" ++ newline
                    :: py "with a as (select 1) select * from a")
           :: after
       /\ is_statement
            (clean_sql_query
               (py "Sure!" ++ newline :: py "so:" ++ newline
                   :: py "with a as (select 1) select * from a"))
          = true
       /\ forall line, In line before -> is_statement line = false.
Proof.
  split; [reflexivity|].
  exact (proj1 sanitize_keyword_priority
           (py "Sure!" ++ newline :: py "so:" ++ newline
               :: py "with a as (select 1) select * from a") eq_refl).
Defined.

(** ** The sanitizer: the strip of the whole text *)

(** C6: the strip of the whole text is meant to remove every backtick, quote
    and white space character left at the two ends (the comment in
    [chatbot.py] says leading and trailing whitespace), but the set given to
    [strip] holds only the space and the newline of the white space, so a
    tab or a carriage return stops it.  The code at three such inputs: a tab
    between two backticks, a tab between two quotes, and a fenced statement
    in backticks with carriage returns before the newlines. *)
Theorem strip_step_misses_tab_and_cr :
  stripped (backtick :: tab :: backtick :: py "SELECT 1")
  = tab :: backtick :: py "SELECT 1"
  /\ spec_stripped (backtick :: tab :: backtick :: py "SELECT 1")
     = py "SELECT 1"
  /\ clean_sql_query (backtick :: tab :: backtick :: py "SELECT 1")
     = backtick :: py "SELECT 1"
  /\ clean_sql_query [squote; tab; squote] = [tab]
  /\ clean_sql_query
       (py "```sql" ++ cr :: newline :: py "`SELECT 1`" ++ cr :: newline
           :: py "```")
     = py "SELECT 1`".
Proof. repeat split; vm_compute; reflexivity. Qed.

(** The strip of the code and the strip of the specification part at a
    tab. *)
Lemma strip_step_stops_at_tab :
  stripped (squote :: tab :: squote :: py "SELECT 1")
  <> spec_stripped (squote :: tab :: squote :: py "SELECT 1").
Proof. vm_compute. discriminate. Qed.

Lemma in_strip_chars_spec (c : ascii) :
  in_strip_chars c = true
  <-> In c [backtick; squote; dquote; space; newline].
Proof.
  unfold in_strip_chars, char_in, strip_chars. rewrite existsb_exists. split.
  - intros [x [Hx E]]. apply Ascii.eqb_eq in E. now subst x.
  - intros H. exists c. split; [exact H | apply Ascii.eqb_refl].
Qed.

(** What the strip of the code does, for every text: it removes from both
    ends the longest runs of characters of its five-character set. *)
Theorem strip_step_exact (raw : str) :
  (exists pre suf : str,
      sub_trailing (sub_leading raw) = pre ++ stripped raw ++ suf
      /\ forallb in_strip_chars pre = true
      /\ forallb in_strip_chars suf = true)
  /\ starts_in in_strip_chars (stripped raw) = false
  /\ ends_in in_strip_chars (stripped raw) = false
  /\ (forall c, in_strip_chars c = true
                <-> In c [backtick; squote; dquote; space; newline])
  /\ in_strip_chars tab = false
  /\ in_strip_chars cr = false
  /\ clean_sql_query raw
     = select_line (nonempty_lines (stripped raw)) (stripped raw).
Proof.
  repeat split.
  - apply strip_by_split.
  - apply strip_by_head.
  - apply strip_by_last.
  - apply in_strip_chars_spec.
  - apply in_strip_chars_spec.
Qed.

(** ** The sanitizer: fences and the language tag *)

(** C7: the fenced input with the sql tag, the line SELECT 1 and the closing
    fence sanitizes to exactly SELECT 1. *)
Theorem sanitize_fenced :
  clean_sql_query
    (py "```sql" ++ newline :: py "SELECT 1" ++ newline :: py "```")
  = py "SELECT 1".
Proof. vm_compute. reflexivity. Qed.

(** The steps of that run, one by one. *)
Example sanitize_fenced_steps :
  sub_leading (py "```sql" ++ newline :: py "SELECT 1" ++ newline :: py "```")
  = py "SELECT 1" ++ newline :: py "```"
  /\ sub_trailing (py "SELECT 1" ++ newline :: py "```")
     = py "SELECT 1" ++ [newline]
  /\ strip_by in_strip_chars (py "SELECT 1" ++ [newline]) = py "SELECT 1"
  /\ nonempty_lines (py "SELECT 1") = [py "SELECT 1"].
Proof. repeat split; vm_compute; reflexivity. Qed.

(** C10: a leading sql tag, in any letter case and with white space around
    it, is removed even when no fence marker precedes it, so such a text is
    changed before the lines are selected. *)
Theorem leading_tag_removed_without_fence :
  (forall ws tag rest : str,
      forallb isspace ws = true ->
      is_sql_tag tag = true ->
      sub_leading (ws ++ tag ++ rest) = lstrip_by isspace rest
      /\ sub_leading (ws ++ tag ++ rest) <> ws ++ tag ++ rest)
  /\ clean_sql_query (py "sqlite_master") = py "ite_master".
Proof.
  split; [|vm_compute; reflexivity].
  intros ws tag rest W T.
  destruct tag as [|c1 [|c2 [|c3 [|]]]]; try discriminate T.
  simpl in T.
  assert (S1 : ieq "s" c1 = true).
  { repeat (apply andb_true_iff in T as [T ?]). exact T. }
  destruct (letter_s_plain _ S1) as [Q1 W1].
  assert (E : sub_leading (ws ++ [c1; c2; c3] ++ rest) = lstrip_by isspace rest).
  { unfold sub_leading, match_leading.
    rewrite fence_marker_none.
    - unfold tag_ws. rewrite (lstrip_by_app _ _ _ W). simpl.
      rewrite W1, T. reflexivity.
    - destruct ws as [|w ws']; simpl; [exact Q1|].
      simpl in W. apply andb_true_iff in W as [W _].
      now apply isspace_not_quote. }
  split; [exact E|].
  intros F. rewrite E in F.
  pose proof (lstrip_by_length isspace rest) as L.
  rewrite F in L. rewrite !length_app in L. simpl in L. lia.
Qed.

Lemma leading_tag_removed_witness :
  forallb isspace (py "  ") = true
  /\ is_sql_tag (py "SqL") = true
  /\ sub_leading (py "  " ++ py "SqL" ++ py " users") = py "users".
Proof.
  split; [reflexivity|]. split; [reflexivity|].
  exact (proj1 (proj1 leading_tag_removed_without_fence
                  (py "  ") (py "SqL") (py " users") eq_refl eq_refl)).
Defined.

(** ** The answer synthesizer *)

Section Turn.

Variable generate_content : list call -> str -> outcome str.
Variable execute : list call -> str -> outcome DataFrame.
Variable to_markdown : DataFrame -> str.

Lemma empty_zero_rows (df : DataFrame) : rows df = [] -> empty df = true.
Proof. unfold empty. now intros ->. Qed.

Lemma empty_result_set (df : DataFrame) :
  is_result_set df -> rows df <> [] -> empty df = false.
Proof.
  unfold empty, is_result_set. intros [C _] R.
  destruct (rows df); [now elim R|]. destruct (columns df); [now elim C|].
  reflexivity.
Qed.

(** C8: for a result set with zero rows the answer synthesizer returns the
    literal No results found. and makes no generation call; for a result set
    with rows it makes one generation call, with the answer prompt, and
    returns the text of the response trimmed (the exception, if the call
    raises). *)
Theorem friendly_answer_cases (question : str) (df : DataFrame) (st : state) :
  (rows df = [] ->
   generate_friendly_answer generate_content to_markdown question df st
   = (Returned (py "No results found."), st))
  /\ (is_result_set df -> rows df <> [] ->
      generate_friendly_answer generate_content to_markdown question df st
      = (outcome_map strip
           (generate_content (calls st) (answer_prompt to_markdown question df)),
         record_call (Generate (answer_prompt to_markdown question df)) st)).
Proof.
  unfold generate_friendly_answer. split.
  - intros R. now rewrite (empty_zero_rows _ R).
  - intros W R. rewrite (empty_result_set W R).
    unfold bind, generate, ret.
    now destruct (generate_content (calls st) _).
Qed.

(** ** The submission handler *)

(** The handler leaves the history alone when the form is not submitted or
    the question is empty. *)
Lemma submit_guard (submitted : bool) (q table_name table_info : str)
    (done : list call) (history : list entry) :
  submitted && truthy q = false ->
  submit generate_content execute to_markdown submitted q table_name table_info
    done history = (history, done).
Proof. unfold submit. now intros ->. Qed.

Lemma friendly_answer_keeps_local (q : str) (df : DataFrame) (st : state) :
  cleaned_sql
    (snd (generate_friendly_answer generate_content to_markdown q df st))
  = cleaned_sql st.
Proof.
  unfold generate_friendly_answer, bind, generate, ret.
  destruct (empty df); [reflexivity|].
  now destruct (generate_content (calls st) _).
Qed.

(** The run of a turn, case by case. *)
Lemma submit_generation_fails (q table_name table_info : str)
    (done : list call) (history : list entry) (e : str) :
  truthy q = true ->
  generate_content done (sql_prompt q table_name table_info) = Raised e ->
  submit generate_content execute to_markdown true q table_name table_info
    done history
  = (history ++ [failure_entry q (py "N/A") e],
     done ++ [Generate (sql_prompt q table_name table_info)]).
Proof.
  intros T G. unfold submit, try_body, generate_sql_query, bind, generate.
  rewrite T. simpl. rewrite G. reflexivity.
Qed.

Lemma submit_execution_fails (q table_name table_info : str)
    (done : list call) (history : list entry) (raw e : str) :
  truthy q = true ->
  generate_content done (sql_prompt q table_name table_info) = Returned raw ->
  execute (done ++ [Generate (sql_prompt q table_name table_info)])
    (clean_sql_query (strip raw)) = Raised e ->
  submit generate_content execute to_markdown true q table_name table_info
    done history
  = (history ++ [failure_entry q (clean_sql_query (strip raw)) e],
     (done ++ [Generate (sql_prompt q table_name table_info)])
       ++ [Execute (clean_sql_query (strip raw))]).
Proof.
  intros T G X.
  unfold submit, try_body, generate_sql_query, bind, generate, run_statement,
    assign_cleaned_sql, ret.
  rewrite T. simpl. rewrite G. simpl. rewrite X. reflexivity.
Qed.

Lemma submit_executed (q table_name table_info : str)
    (done : list call) (history : list entry) (raw : str) (df : DataFrame) :
  truthy q = true ->
  generate_content done (sql_prompt q table_name table_info) = Returned raw ->
  execute (done ++ [Generate (sql_prompt q table_name table_info)])
    (clean_sql_query (strip raw)) = Returned df ->
  submit generate_content execute to_markdown true q table_name table_info
    done history
  = match generate_friendly_answer generate_content to_markdown q df
            {| calls := (done ++ [Generate (sql_prompt q table_name table_info)])
                          ++ [Execute (clean_sql_query (strip raw))];
               cleaned_sql := Some (clean_sql_query (strip raw)) |} with
    | (Returned answer, st) =>
        (history ++ [success_entry q (clean_sql_query (strip raw)) df answer],
         calls st)
    | (Raised e, st) =>
        (history ++ [failure_entry q (clean_sql_query (strip raw)) e],
         calls st)
    end.
Proof.
  intros T G X.
  unfold submit, try_body, generate_sql_query, bind, generate, run_statement,
    assign_cleaned_sql, ret.
  rewrite T. simpl. rewrite G. simpl. rewrite X. unfold record_call. simpl.
  match goal with
  | |- context [generate_friendly_answer _ _ _ _ ?s] =>
      pose proof (friendly_answer_keeps_local q df s) as K
  end.
  destruct (generate_friendly_answer generate_content to_markdown q df _)
    as [[answer | e] st]; [reflexivity|].
  simpl in K. unfold except_entry. rewrite K. reflexivity.
Qed.

(** C2 (amended): a summary failure is fatal to the turn.  For every turn in
    which the query is generated, execution yields a result set that is not
    empty and the second (summary) generation call fails, the outcome
    appended to the history is an error outcome: it carries the question,
    the sanitized query and the text of the error, and neither the result
    rows nor a summary. *)
Theorem summary_failure_is_fatal (q table_name table_info : str)
    (done : list call) (history : list entry)
    (raw : str) (df : DataFrame) (e : str) :
  truthy q = true ->
  generate_content done (sql_prompt q table_name table_info) = Returned raw ->
  execute (done ++ [Generate (sql_prompt q table_name table_info)])
    (clean_sql_query (strip raw)) = Returned df ->
  empty df = false ->
  generate_content
    ((done ++ [Generate (sql_prompt q table_name table_info)])
       ++ [Execute (clean_sql_query (strip raw))])
    (answer_prompt to_markdown q df) = Raised e ->
  submit generate_content execute to_markdown true q table_name table_info
    done history
  = (history ++ [failure_entry q (clean_sql_query (strip raw)) e],
     ((done ++ [Generate (sql_prompt q table_name table_info)])
        ++ [Execute (clean_sql_query (strip raw))])
       ++ [Generate (answer_prompt to_markdown q df)]).
Proof.
  intros T G X E S. rewrite (submit_executed history T G X).
  unfold generate_friendly_answer, bind, generate. rewrite E. simpl.
  rewrite S. reflexivity.
Qed.


End Turn.

(** ** Concrete runs *)

(** C8 at a result set without rows and at the one-row count. *)
Lemma friendly_answer_cases_witness :
  (rows no_rows_df = []
   /\ generate_friendly_answer model_up render how_many no_rows_df
        {| calls := [Execute (py "SELECT city FROM orders WHERE 1 = 0")];
           cleaned_sql := None |}
      = (Returned (py "No results found."),
         {| calls := [Execute (py "SELECT city FROM orders WHERE 1 = 0")];
            cleaned_sql := None |}))
  /\ (is_result_set count_df
      /\ rows count_df <> []
      /\ generate_friendly_answer model_up render how_many count_df
           {| calls := [Execute (py "SELECT COUNT(*) FROM orders")];
              cleaned_sql := None |}
         = (Returned (py "There are 5 orders."),
            {| calls := [Execute (py "SELECT COUNT(*) FROM orders");
                         Generate (answer_prompt render how_many count_df)];
               cleaned_sql := None |})).
Proof.
  split.
  - split; [reflexivity|].
    exact (proj1 (friendly_answer_cases model_up render how_many no_rows_df
                    {| calls := [Execute (py "SELECT city FROM orders WHERE 1 = 0")];
                       cleaned_sql := None |}) eq_refl).
  - assert (W : is_result_set count_df).
    { split; [discriminate | repeat constructor]. }
    assert (R : rows count_df <> []) by discriminate.
    split; [exact W|]. split; [exact R|].
    exact (proj2 (friendly_answer_cases model_up render how_many count_df
                    {| calls := [Execute (py "SELECT COUNT(*) FROM orders")];
                       cleaned_sql := None |}) W R).
Defined.

(** C2, as the specification states it, fails: the model answers the first
    call, the store returns the count, the second call raises, and the
    entry appended is an error entry without the rows. *)
Lemma summary_failure_not_a_success :
  ~ spec_summary_failure_non_fatal model_then_down store_counts render
      how_many orders orders_info [] [].
Proof.
  intros H.
  destruct (H (py "```sql" ++ newline :: py "SELECT COUNT(*) FROM orders"
                  ++ newline :: py "```")
              count_df (py "503 The model is overloaded.")
              eq_refl eq_refl eq_refl eq_refl) as [ent [E [_ [R _]]]].
  vm_compute in E. injection E as <-. discriminate R.
Qed.

Lemma summary_failure_is_fatal_witness :
  submit model_then_down store_counts render true how_many orders orders_info
    [] []
  = ([failure_entry how_many (py "SELECT COUNT(*) FROM orders")
        (py "503 The model is overloaded.")],
     [Generate (sql_prompt how_many orders orders_info);
      Execute (py "SELECT COUNT(*) FROM orders");
      Generate (answer_prompt render how_many count_df)]).
Proof.
  exact (@summary_failure_is_fatal model_then_down store_counts render
           how_many orders orders_info [] []
           (py "```sql" ++ newline :: py "SELECT COUNT(*) FROM orders"
               ++ newline :: py "```")
           count_df (py "503 The model is overloaded.")
           eq_refl eq_refl eq_refl eq_refl eq_refl).
Defined.

(** The execution failure scenario of the specification: the statement names
    a column that does not exist. *)
Example execution_failure_run :
  submit model_up store_rejects render true how_many orders orders_info [] []
  = ([failure_entry how_many (py "SELECT nope FROM orders")
        (py "(sqlite3.OperationalError) no such column: nope")],
     [Generate (sql_prompt how_many orders orders_info);
      Execute (py "SELECT nope FROM orders")]).
Proof. vm_compute. reflexivity. Qed.


(** * Further properties of the code *)

(** ** The sanitizer only cuts *)

Lemma piece_refl (s : str) : piece s s.
Proof. exists [], []. simpl. now rewrite app_nil_r. Qed.

Lemma piece_trans (t u s : str) : piece t u -> piece u s -> piece t s.
Proof.
  intros [a [b ->]] [c [d ->]]. exists (c ++ a), (b ++ d).
  now rewrite <- !app_assoc.
Qed.

Lemma piece_suffix (a s : str) : piece s (a ++ s).
Proof. exists a, []. now rewrite app_nil_r. Qed.

Lemma piece_prefix (s b : str) : piece s (s ++ b).
Proof. now exists [], b. Qed.

Lemma piece_nil (s : str) : piece [] s.
Proof. now exists [], s. Qed.

Lemma piece_In (t s : str) (c : ascii) : piece t s -> In c t -> In c s.
Proof.
  intros [a [b ->]] H. apply in_or_app. right. apply in_or_app. now left.
Qed.

Lemma piece_length (t s : str) : piece t s -> List.length t <= List.length s.
Proof. intros [a [b ->]]. rewrite !length_app. lia. Qed.

Lemma lstrip_by_piece (p : ascii -> bool) (s : str) : piece (lstrip_by p s) s.
Proof.
  destruct (lstrip_by_split p s) as [pre [E _]]. rewrite E at 2.
  apply piece_suffix.
Qed.

Lemma strip_by_piece (p : ascii -> bool) (s : str) : piece (strip_by p s) s.
Proof. destruct (strip_by_split p s) as [pre [suf [E _]]]. now exists pre, suf. Qed.

Lemma tag_ws_piece (s r : str) : tag_ws s = Some r -> piece r s.
Proof.
  unfold tag_ws. pose proof (lstrip_by_piece isspace s) as P.
  destruct (lstrip_by isspace s) as [|c1 [|c2 [|c3 t]]]; try discriminate.
  destruct (ieq "s" c1 && ieq "q" c2 && ieq "l" c3); [|discriminate].
  intros E. injection E as <-.
  apply piece_trans with (u := t); [apply lstrip_by_piece|].
  apply piece_trans with (u := c1 :: c2 :: c3 :: t); [|exact P].
  apply (piece_suffix [c1; c2; c3]).
Qed.

Lemma fence_marker_piece (s r : str) : fence_marker s = Some r -> piece r s.
Proof.
  destruct s as [|c1 [|c2 [|c3 t]]]; try discriminate. simpl.
  destruct (is_fence c1 c2 c3); [|discriminate].
  intros E. injection E as <-. apply (piece_suffix [c1; c2; c3]).
Qed.

Lemma sub_leading_piece (s : str) : piece (sub_leading s) s.
Proof.
  unfold sub_leading, match_leading.
  destruct (fence_marker s) as [t|] eqn:F.
  - destruct (tag_ws t) as [r|] eqn:T.
    + apply piece_trans with (u := t);
        [now apply tag_ws_piece | now apply fence_marker_piece].
    + destruct (tag_ws s) as [r|] eqn:T';
        [now apply tag_ws_piece | apply piece_refl].
  - destruct (tag_ws s) as [r|] eqn:T';
      [now apply tag_ws_piece | apply piece_refl].
Qed.

Lemma lstrip_by_app_keep (p : ascii -> bool) (t x : str) :
  lstrip_by p t <> [] -> lstrip_by p (t ++ x) = lstrip_by p t ++ x.
Proof.
  induction t as [|c r IH]; simpl; [now intros H|].
  destruct (p c); [exact IH | reflexivity].
Qed.

Lemma rstrip_by_app (p : ascii -> bool) (x suf : str) :
  forallb p suf = true -> rstrip_by p (x ++ suf) = rstrip_by p x.
Proof.
  intros H. unfold rstrip_by. rewrite rev_app_distr, lstrip_by_app; [reflexivity|].
  apply forallb_forall. intros c Hc. rewrite forallb_forall in H.
  apply H. now apply in_rev.
Qed.

Lemma strip_by_snoc (p : ascii -> bool) (t : str) (c : ascii) :
  p c = true -> piece (strip_by p (t ++ [c])) t.
Proof.
  intros Pc. unfold strip_by. destruct (lstrip_by p t) as [|a u] eqn:L.
  - rewrite lstrip_by_app by now apply lstrip_by_nil.
    simpl. rewrite Pc. apply piece_nil.
  - rewrite lstrip_by_app_keep by (rewrite L; discriminate).
    rewrite rstrip_by_app by (simpl; now rewrite Pc).
    apply strip_by_piece.
Qed.

Lemma stripped_piece (s : str) : piece (stripped s) s.
Proof.
  unfold stripped.
  apply piece_trans with (u := sub_leading s); [|apply sub_leading_piece].
  generalize (sub_leading s). intros z. unfold sub_trailing.
  pose proof (rev_involutive z) as Z.
  destruct (rev z) as [|c3 [|c2 [|c1 r]]]; try apply strip_by_piece.
  destruct (is_fence c1 c2 c3).
  - apply piece_trans with (u := rev r); [apply strip_by_piece|].
    rewrite <- Z. simpl. rewrite <- !app_assoc. apply piece_prefix.
  - destruct r as [|c0 r']; [apply strip_by_piece|].
    destruct (Ascii.eqb c3 newline) eqn:E; [|apply strip_by_piece].
    destruct (is_fence c0 c1 c2); [|apply strip_by_piece].
    apply Ascii.eqb_eq in E. subst c3. simpl.
    apply piece_trans with (u := rev r');
      [now apply strip_by_snoc|].
    rewrite <- Z. simpl. rewrite <- !app_assoc. apply piece_prefix.
Qed.

Lemma splitlines_from_piece (s cur l : str) :
  In l (splitlines_from cur s) -> piece l (rev cur ++ s).
Proof.
  revert cur. induction s as [|a r IH]; intros cur H.
  - destruct cur as [|b q]; simpl in H; [contradiction|].
    destruct H as [<- | []]. rewrite app_nil_r. apply piece_refl.
  - simpl in H. destruct (islinebreak a).
    + destruct H as [<- | H]; [apply piece_prefix|].
      apply splitlines_after_break, (IH []) in H. simpl in H.
      apply piece_trans with (u := r); [exact H|].
      replace (rev cur ++ a :: r) with ((rev cur ++ [a]) ++ r)
        by now rewrite <- app_assoc.
      apply piece_suffix.
    + apply IH in H. simpl in H. now rewrite <- app_assoc in H.
Qed.

Lemma nonempty_lines_piece (s l : str) : In l (nonempty_lines s) -> piece l s.
Proof.
  unfold nonempty_lines. intros H. apply filter_In in H as [H _].
  apply in_map_iff in H as [l0 [<- H0]].
  apply piece_trans with (u := l0); [apply strip_by_piece|].
  now apply (splitlines_from_piece s []).
Qed.

(** X1: the sanitizer only cuts.  Its output occurs in its input as one
    run of characters, so it is never longer than the input and holds no
    character the input lacks. *)
Theorem sanitize_is_piece (raw : str) :
  piece (clean_sql_query raw) raw
  /\ List.length (clean_sql_query raw) <= List.length raw.
Proof.
  assert (P : piece (clean_sql_query raw) raw).
  { apply piece_trans with (u := stripped raw); [|apply stripped_piece].
    destruct (clean_sql_query_cases raw) as [[_ [C _]] | H].
    - rewrite C. apply piece_refl.
    - now apply nonempty_lines_piece. }
  split; [exact P | now apply piece_length].
Qed.

(** ** The texts the sanitizer leaves as they are *)

Lemma filter_none {A : Type} (f : A -> bool) (l : list A) :
  (forall x, In x l -> f x = false) -> filter f l = [].
Proof.
  induction l as [|a r IH]; simpl; intros H; [reflexivity|].
  rewrite (H a (or_introl eq_refl)). apply IH. intros x Hx. apply H. now right.
Qed.

Lemma strip_blank (l : str) : forallb isspace l = true -> strip l = [].
Proof.
  intros H. unfold strip, strip_by.
  rewrite <- (app_nil_r l), (lstrip_by_app _ _ [] H). reflexivity.
Qed.

Lemma nonempty_lines_blank (q : str) :
  forallb isspace q = true -> nonempty_lines q = [].
Proof.
  intros B. unfold nonempty_lines. apply filter_none.
  intros l H. apply in_map_iff in H as [l0 [<- H0]].
  rewrite strip_blank; [reflexivity|].
  apply forallb_forall. intros c Hc. rewrite forallb_forall in B. apply B.
  eapply piece_In; [exact (splitlines_from_piece q [] _ H0) | exact Hc].
Qed.

(** X2: the texts the sanitizer returns unchanged are exactly the settled
    ones (the first pattern of the sanitizer does not match at the head, and
    there is no backtick or quote at either end) that are one non-empty line
    without white space at its ends, or that are blank and have no space or
    newline at their ends. *)
Theorem sanitize_fixed_points (q : str) :
  clean_sql_query q = q
  <-> settled q = true
      /\ ((q <> [] /\ single_line q = true /\ trimmed q = true)
          \/ (forallb isspace q = true
              /\ starts_in in_strip_chars q = false
              /\ ends_in in_strip_chars q = false)).
Proof.
  split.
  - intros E. split; [now apply sanitize_fixed_only_when_settled|].
    destruct (clean_sql_query_cases q) as [[_ [C B]] | H].
    + right. rewrite E in C. rewrite <- C in B. split; [exact B|].
      rewrite C. unfold stripped. split; [apply strip_by_head | apply strip_by_last].
    + left. rewrite E in H.
      apply nonempty_lines_In in H as [Hne [H1 [H2 Hb]]].
      repeat split; try assumption.
      * apply forallb_forall. intros c Hc. now rewrite (Hb c Hc).
      * unfold trimmed. now rewrite H1, H2.
  - intros [S [[Hne [L T]] | [B [H1 H2]]]].
    + unfold trimmed in T. apply andb_true_iff in T as [T1 T2].
      apply negb_true_iff in T1, T2.
      apply clean_sql_query_line; try assumption.
      intros c Hc. unfold single_line in L. rewrite forallb_forall in L.
      apply negb_true_iff. now apply L.
    + assert (E : stripped q = q)
        by (apply stripped_id; [assumption | assumption | now apply tag_ws_blank]).
      unfold clean_sql_query. rewrite E, (nonempty_lines_blank _ B). reflexivity.
Qed.

(** ** Only the first statement line is kept *)

Lemma statement_head (c : ascii) (r : str) :
  is_statement (c :: r) = true ->
  is_quote c = false /\ isspace c = false /\ in_strip_chars c = false.
Proof.
  intros H.
  destruct c as [[] [] [] [] [] [] [] []];
    first [ now repeat split | vm_compute in H; discriminate H ].
Qed.

Lemma startswith_tag_inv (s : str) :
  startswith (py "sql") s = true ->
  exists t, s = "s"%char :: "q"%char :: "l"%char :: t.
Proof.
  change (py "sql") with ["s"; "q"; "l"]%char.
  destruct s as [|a [|b [|c t]]]; cbn [startswith]; intros H.
  - discriminate H.
  - apply andb_true_iff in H as [_ H]. discriminate H.
  - apply andb_true_iff in H as [_ H]. apply andb_true_iff in H as [_ H].
    discriminate H.
  - apply andb_true_iff in H as [H1 H]. apply andb_true_iff in H as [H2 H].
    apply andb_true_iff in H as [H3 _].
    apply Ascii.eqb_eq in H1, H2, H3. subst. now exists t.
Qed.

Lemma statement_not_tag (l : str) :
  is_statement l = true -> startswith (py "sql") (lower l) = false.
Proof.
  intros H. destruct (startswith (py "sql") (lower l)) eqn:T; [|reflexivity].
  apply startswith_tag_inv in T as [t E].
  unfold is_statement in H. rewrite E in H. vm_compute in H. discriminate H.
Qed.

Lemma ends_in_app (p : ascii -> bool) (a b : str) :
  b <> [] -> ends_in p (a ++ b) = ends_in p b.
Proof.
  intros Hb. unfold ends_in. rewrite rev_app_distr.
  destruct (rev b) as [|c t] eqn:R; [|reflexivity].
  apply (f_equal (@rev ascii)) in R. rewrite rev_involutive in R. now elim Hb.
Qed.

Lemma after_break_newline (r : str) : after_break newline r = r.
Proof. destruct r; reflexivity. Qed.

Lemma splitlines_from_first_line (first rest cur : str) :
  (forall c, In c first -> islinebreak c = false) ->
  splitlines_from cur (first ++ newline :: rest)
  = (rev cur ++ first) :: splitlines_from [] rest.
Proof.
  revert cur. induction first as [|a r IH]; intros cur H.
  - simpl. now rewrite after_break_newline, app_nil_r.
  - simpl. rewrite (H a (or_introl eq_refl)).
    rewrite IH by (intros c Hc; apply H; now right).
    simpl. now rewrite <- app_assoc.
Qed.

(** X3: only the first statement line is kept.  When the text begins with a
    trimmed line that passes the keyword test, the sanitizer returns that
    line and drops all that follows it, whatever it is: a statement written
    over several lines is cut to its first line. *)
Theorem first_statement_line_only (first rest : str) :
  is_statement first = true ->
  single_line first = true ->
  trimmed first = true ->
  rest <> [] ->
  ends_in in_strip_chars rest = false ->
  clean_sql_query (first ++ newline :: rest) = first.
Proof.
  intros St L T Hr E.
  destruct first as [|c r]; [discriminate St|].
  destruct (statement_head _ _ St) as [Q [W I]].
  assert (Hend : ends_in in_strip_chars ((c :: r) ++ newline :: rest) = false).
  { rewrite (ends_in_app _ (c :: r)) by discriminate.
    rewrite (ends_in_app _ [newline] Hr) in *. exact E. }
  assert (S : stripped ((c :: r) ++ newline :: rest)
              = (c :: r) ++ newline :: rest).
  { apply stripped_id; [exact I | exact Hend |].
    apply tag_ws_settled; [exact W|].
    pose proof (statement_not_tag _ St) as N.
    destruct r as [|c2 [|c3 t]]; simpl in *; exact N. }
  assert (Hb : forall x, In x (c :: r) -> islinebreak x = false).
  { intros x Hx. unfold single_line in L. rewrite forallb_forall in L.
    apply negb_true_iff. now apply L. }
  unfold trimmed in T. apply andb_true_iff in T as [T1 T2].
  apply negb_true_iff in T1, T2.
  unfold clean_sql_query. rewrite S.
  unfold nonempty_lines, splitlines.
  rewrite splitlines_from_first_line by exact Hb.
  cbn [map rev app]. unfold strip at 1.
  rewrite strip_by_id by assumption.
  cbn [filter truthy]. unfold select_line. cbn [find]. now rewrite St.
Qed.

Lemma first_statement_line_only_witness :
  clean_sql_query
    (py "SELECT name, salary" ++ newline :: py "FROM employees WHERE id = 3")
  = py "SELECT name, salary".
Proof.
  apply (@first_statement_line_only
           (py "SELECT name, salary") (py "FROM employees WHERE id = 3"));
    [reflexivity | reflexivity | reflexivity | discriminate | reflexivity].
Defined.

(** ** What a turn of [app.py] does to the history and to the outside *)

Lemma clean_sql_query_shape (raw : str) :
  one_line_or_blank (clean_sql_query raw).
Proof.
  destruct (clean_sql_query_cases raw) as [[_ [C B]] | H].
  - left. now rewrite C.
  - right. apply nonempty_lines_In in H as [Hne [H1 [H2 Hb]]].
    repeat split; try assumption.
    + apply forallb_forall. intros c Hc. now rewrite (Hb c Hc).
    + unfold trimmed. now rewrite H1, H2.
Qed.

Lemma generations_app (a b : list call) :
  generations (a ++ b) = generations a + generations b.
Proof. unfold generations. now rewrite filter_app, length_app. Qed.

Lemma executions_app (a b : list call) :
  executions (a ++ b) = executions a + executions b.
Proof. unfold executions. now rewrite filter_app, length_app. Qed.

(** Each statement of a short list of calls is the sanitized response. *)
Ltac executed_statement raw :=
  let stmt := fresh "stmt" in
  let H := fresh "H" in
  intros stmt H; simpl in H;
  repeat (destruct H as [H | H];
          [first [ discriminate H
                 | injection H as <-;
                   split; [apply clean_sql_query_shape | now exists raw] ]
          |]);
  destruct H.

Section TurnEffects.

Variable generate_content : list call -> str -> outcome str.
Variable execute : list call -> str -> outcome DataFrame.
Variable to_markdown : DataFrame -> str.

(** The summary step adds no call or one generation call. *)
Lemma friendly_answer_calls (q : str) (df : DataFrame) (st : state) :
  calls (snd (generate_friendly_answer generate_content to_markdown q df st))
  = calls st
  \/ calls (snd (generate_friendly_answer generate_content to_markdown q df st))
     = calls st ++ [Generate (answer_prompt to_markdown q df)].
Proof.
  unfold generate_friendly_answer, bind, generate, ret.
  destruct (empty df); [now left|]. right.
  now destruct (generate_content (calls st) _).
Qed.

(** X4: what a turn asks of the outside.  A turn makes at most two
    generation calls and executes at most one statement; the statement it
    executes is the sanitized form of the trimmed response of the model, so
    it is blank or one trimmed line; and nothing is executed when the
    generation of the query fails. *)
Theorem turn_calls (submitted : bool) (q table_name table_info : str)
    (done : list call) (history : list entry) :
  exists new : list call,
    snd (submit generate_content execute to_markdown submitted q table_name
           table_info done history) = done ++ new
    /\ generations new <= 2
    /\ executions new <= 1
    /\ (forall stmt,
           In (Execute stmt) new ->
           one_line_or_blank stmt
           /\ exists raw,
                generate_content done (sql_prompt q table_name table_info)
                = Returned raw
                /\ stmt = clean_sql_query (strip raw))
    /\ (forall e,
           generate_content done (sql_prompt q table_name table_info)
           = Raised e ->
           executions new = 0).
Proof.
  destruct (submitted && truthy q) eqn:G.
  2:{ rewrite (submit_guard generate_content execute to_markdown _ _ _ _ _
                 history G).
      exists []. simpl. rewrite app_nil_r.
      split; [reflexivity|]. split; [vm_compute; lia|].
      split; [vm_compute; lia|]. split; [intros stmt []|reflexivity]. }
  apply andb_true_iff in G as [-> T].
  destruct (generate_content done (sql_prompt q table_name table_info))
    as [raw | e] eqn:E1.
  - destruct (execute (done ++ [Generate (sql_prompt q table_name table_info)])
                (clean_sql_query (strip raw))) as [df | e] eqn:E2.
    + rewrite (submit_executed generate_content execute to_markdown
                 q table_name table_info done history T E1 E2).
      match goal with
      | |- context [generate_friendly_answer _ _ _ _ ?s] =>
          pose proof (friendly_answer_calls q df s) as K
      end.
      destruct (generate_friendly_answer generate_content to_markdown q df _)
        as [[answer | e] st]; simpl in K |- *;
        destruct K as [-> | ->];
        rewrite <- ?app_assoc; simpl;
        (eexists; split; [reflexivity|]);
        (split; [vm_compute; lia|]); (split; [vm_compute; lia|]);
        (split; [executed_statement raw | intros e' H; discriminate H]).
    + rewrite (submit_execution_fails generate_content execute to_markdown
                 q table_name table_info done history T E1 E2).
      rewrite <- app_assoc. simpl. eexists. split; [reflexivity|].
      split; [vm_compute; lia|]. split; [vm_compute; lia|].
      split; [executed_statement raw | intros e' H; discriminate H].
  - rewrite (submit_generation_fails generate_content execute to_markdown
               q table_name table_info done history T E1). simpl.
    eexists. split; [reflexivity|].
    split; [vm_compute; lia|]. split; [vm_compute; lia|].
    split; [executed_statement e | reflexivity].
Qed.

End TurnEffects.

(** ** The history and its display *)

Lemma forallb_rev {A : Type} (f : A -> bool) (l : list A) :
  forallb f (rev l) = forallb f l.
Proof.
  induction l as [|a r IH]; [reflexivity|].
  simpl. rewrite forallb_app, IH. simpl. rewrite andb_true_r. apply andb_comm.
Qed.

Section DisplayFacts.

Variable show_dataframe : DataFrame -> outcome unit.

(** An entry with rows or an error text is shown whole, unless
    [st.dataframe] raises on its table. *)
Lemma render_entry_showable (e : entry) :
  Display.showable e = true ->
  snd (Display.render_entry show_dataframe e) = None
  \/ exists df err,
       result_df e = Some df
       /\ show_dataframe df = Raised err
       /\ snd (Display.render_entry show_dataframe e)
          = Some (Display.WidgetError err).
Proof.
  unfold Display.showable, Display.render_entry.
  destruct (result_df e) as [df|].
  - intros _. destruct (show_dataframe df) as [u|err] eqn:S; [now left|].
    right. now exists df, err.
  - destruct (error e); [now left | discriminate].
Qed.

Lemma render_all_failure (entries : list entry) (f : Display.failure) :
  forallb Display.showable entries = true ->
  snd (Display.render_all show_dataframe entries) = Some f ->
  exists err,
    f = Display.WidgetError err
    /\ Display.table_fails show_dataframe entries err.
Proof.
  induction entries as [|e rest IH]; simpl; [discriminate|].
  intros H. apply andb_true_iff in H as [He Hr].
  destruct (render_entry_showable e He) as [R | [df [err [R1 [R2 R3]]]]];
    destruct (Display.render_entry show_dataframe e) as [w [k|]];
    simpl in *; try discriminate.
  - destruct (Display.render_all show_dataframe rest) as [more k] eqn:A.
    simpl in *. intros E. destruct (IH Hr E) as [err [-> [e' [df [I T]]]]].
    exists err. split; [reflexivity|]. exists e', df. split; [now right | exact T].
  - intros E. injection E as <-. injection R3 as ->.
    exists err. split; [reflexivity|]. exists e, df. split; [now left | now split].
Qed.

Lemma render_history_failure (history : list entry) (f : Display.failure) :
  forallb Display.showable history = true ->
  snd (Display.render_history show_dataframe history) = Some f ->
  exists err,
    f = Display.WidgetError err
    /\ Display.table_fails show_dataframe history err.
Proof.
  intros H E. unfold Display.render_history in E.
  apply render_all_failure in E; [|now rewrite forallb_rev].
  destruct E as [err [-> [e [df [I T]]]]].
  exists err. split; [reflexivity|]. exists e, df.
  split; [now apply in_rev | exact T].
Qed.

Lemma render_history_shown (history : list entry) :
  forallb Display.showable history = true ->
  Display.tables_shown show_dataframe history ->
  snd (Display.render_history show_dataframe history) = None.
Proof.
  intros H T.
  destruct (snd (Display.render_history show_dataframe history)) as [f|] eqn:E;
    [|reflexivity].
  destruct (render_history_failure _ H E) as [err [_ [e [df [I [R S]]]]]].
  rewrite (T e df I R) in S. discriminate S.
Qed.

(** X7: the display shows the newest entry first.  Appending an entry that
    has rows or an error text, and whose table [st.dataframe] shows, puts
    its widgets in front of what was displayed before, which is displayed
    unchanged after them. *)
Theorem display_newest_first (history : list entry) (e : entry) :
  Display.showable e = true ->
  Display.tables_shown show_dataframe [e] ->
  Display.render_history show_dataframe (history ++ [e])
  = (fst (Display.render_entry show_dataframe e)
       ++ fst (Display.render_history show_dataframe history),
     snd (Display.render_history show_dataframe history)).
Proof.
  intros S T. unfold Display.render_history. rewrite rev_app_distr. simpl.
  destruct (render_entry_showable e S) as [R | [df [err [R1 [R2 _]]]]].
  - destruct (Display.render_entry show_dataframe e) as [w [k|]];
      [discriminate R|].
    now destruct (Display.render_all show_dataframe (rev history)).
  - rewrite (T e df (or_introl eq_refl) R1) in R2. discriminate R2.
Qed.

End DisplayFacts.

Section History.

Variable generate_content : list call -> str -> outcome str.
Variable execute : list call -> str -> outcome DataFrame.
Variable to_markdown : DataFrame -> str.
Variable show_dataframe : DataFrame -> outcome unit.

Lemma submit_appends (submitted : bool) (q table_name table_info : str)
    (done : list call) (history : list entry) :
  exists new : list entry,
    fst (submit generate_content execute to_markdown submitted q table_name
           table_info done history) = history ++ new
    /\ forallb Display.showable new = true
    /\ List.length new = (if submitted && truthy q then 1 else 0)
    /\ (forall e, In e new -> question e = q).
Proof.
  unfold submit. destruct (submitted && truthy q).
  - destruct (try_body generate_content execute to_markdown q table_name
                table_info _) as [[e | e] st] eqn:B.
    + exists [e]. simpl. split; [reflexivity|].
      cbv [try_body bind generate_sql_query generate run_statement
             assign_cleaned_sql ret record_call calls cleaned_sql] in B.
      destruct (generate_content done _); [|discriminate B].
      destruct (execute _ _); [|discriminate B].
      destruct (generate_friendly_answer _ _ _ _ _) as [[answer | e'] st'];
        [|discriminate B].
      injection B as <- _. simpl. repeat split.
      intros e [<- | []]. reflexivity.
    + exists [except_entry q e st]. simpl. repeat split.
      intros e' [<- | []]. reflexivity.
  - exists []. simpl. rewrite app_nil_r. repeat split. intros e [].
Qed.

(** X5: the history stays showable.  If every entry of the history has rows
    or an error text, so does every entry after any submission, and the
    display of the history then never fails on a missing key: it runs to
    its end whenever [st.dataframe] shows the tables of the history. *)
Theorem history_stays_showable (submitted : bool)
    (q table_name table_info : str) (done : list call)
    (history : list entry) :
  forallb Display.showable history = true ->
  forallb Display.showable
    (fst (submit generate_content execute to_markdown submitted q table_name
            table_info done history)) = true
  /\ (forall key,
         snd (Display.render_history show_dataframe
                (fst (submit generate_content execute to_markdown submitted q
                        table_name table_info done history)))
         <> Some (Display.KeyError key))
  /\ (Display.tables_shown show_dataframe
        (fst (submit generate_content execute to_markdown submitted q
                table_name table_info done history)) ->
      snd (Display.render_history show_dataframe
             (fst (submit generate_content execute to_markdown submitted q
                     table_name table_info done history))) = None).
Proof.
  intros H.
  destruct (submit_appends submitted q table_name table_info done history)
    as [new [E [S _]]].
  rewrite E.
  assert (A : forallb Display.showable (history ++ new) = true)
    by now rewrite forallb_app, H, S.
  split; [exact A|]. split.
  - intros key F.
    destruct (render_history_failure show_dataframe _ A F) as [err [K _]].
    discriminate K.
  - now apply render_history_shown.
Qed.

(** X6: a submission never touches the entries already in the history.  It
    appends one entry, which carries the question, when the form is
    submitted with a question that is not empty; otherwise it appends
    nothing and calls neither the model nor the store. *)
Theorem submission_appends (submitted : bool) (q table_name table_info : str)
    (done : list call) (history : list entry) :
  exists new : list entry,
    fst (submit generate_content execute to_markdown submitted q table_name
           table_info done history) = history ++ new
    /\ List.length new = (if submitted && truthy q then 1 else 0)
    /\ (forall e, In e new -> question e = q)
    /\ (submitted && truthy q = false ->
        snd (submit generate_content execute to_markdown submitted q
               table_name table_info done history) = done).
Proof.
  destruct (submit_appends submitted q table_name table_info done history)
    as [new [E [_ [L Q]]]].
  exists new. repeat split; try assumption.
  intros G. now rewrite (submit_guard generate_content execute to_markdown
                             _ _ _ _ _ history G).
Qed.

End History.

Lemma history_stays_showable_witness :
  forallb Display.showable
    (fst (submit model_then_down store_counts render true how_many
            orders orders_info []
            [success_entry (py "first")
               (py "SELECT COUNT(*) FROM orders") count_df (py "Five.")]))
  = true
  /\ snd (Display.render_history Runs.show_unless_duplicate
            (fst (submit model_then_down store_counts render true how_many
                    orders orders_info []
                    [success_entry (py "first")
                       (py "SELECT COUNT(*) FROM orders") count_df
                       (py "Five.")])))
     = None.
Proof.
  destruct (history_stays_showable model_then_down store_counts render
              Runs.show_unless_duplicate true how_many orders orders_info []
              [success_entry (py "first")
                 (py "SELECT COUNT(*) FROM orders") count_df (py "Five.")]
              eq_refl) as [A [_ N]].
  split; [exact A|]. apply N.
  intros e df I R. vm_compute in I.
  destruct I as [<- | [<- | []]]; [|discriminate R].
  injection R as <-. reflexivity.
Defined.

Lemma display_newest_first_witness :
  fst (Display.render_history Runs.show_unless_duplicate
         ([success_entry (py "first")
             (py "SELECT COUNT(*) FROM orders") count_df (py "Five.")]
            ++ [failure_entry (py "second") (py "N/A") (py "503")]))
  = [Display.Markdown (py "**You:** second");
     Display.Markdown (py "**Generated SQL:**");
     Display.Code (py "N/A");
     Display.ErrorBox (py "**Error:** 503");
     Display.Markdown (py "---")]
    ++ fst (Display.render_history Runs.show_unless_duplicate
              [success_entry (py "first")
                 (py "SELECT COUNT(*) FROM orders") count_df (py "Five.")]).
Proof.
  rewrite (@display_newest_first Runs.show_unless_duplicate
             [success_entry (py "first")
                (py "SELECT COUNT(*) FROM orders") count_df (py "Five.")]
             (failure_entry (py "second") (py "N/A") (py "503")) eq_refl).
  - reflexivity.
  - intros e df [<- | []] R. discriminate R.
Defined.

(** A table with two columns of one name stops the display of its entry
    after the heading of the result. *)
Example display_stops_at_duplicate_columns :
  Display.render_history Runs.show_unless_duplicate
    [success_entry (py "q") (py "SELECT 1, 1")
       {| columns := [py "1"; py "1"]; rows := [[IntCell 1; IntCell 1]] |}
       (py "One.")]
  = ([Display.Markdown (py "**You:** q");
      Display.Markdown (py "**Generated SQL:**");
      Display.Code (py "SELECT 1, 1");
      Display.Markdown (py "**Result:**")],
     Some (Display.WidgetError (py "Duplicate column names found"))).
Proof. vm_compute. reflexivity. Qed.

(** ** Model selection *)

Section SelectionFacts.

Variable probe : str -> str -> outcome (outcome str).

(** X8: how [load_model] chooses.  Without a key it stops at once and probes
    nothing.  A model it returns is the primary or the secondary one and has
    answered its probe; the primary is returned whenever its probe answers,
    and the secondary is probed only after the probe of the primary has
    raised. *)
Theorem load_model_selects (api_key : option str) :
  ((api_key = None \/ api_key = Some []) ->
   Selection.load_model probe api_key
   = (Selection.Halted Selection.key_not_set, []))
  /\ (forall m,
         fst (Selection.load_model probe api_key) = Selection.Loaded m ->
         (m = Selection.primary \/ m = Selection.secondary)
         /\ exists response, probe m Selection.hello = Returned response)
  /\ (forall k response,
         api_key = Some k -> k <> [] ->
         probe Selection.primary Selection.hello = Returned response ->
         Selection.load_model probe api_key
         = (Selection.Loaded Selection.primary, [Selection.primary]))
  /\ (In Selection.secondary (snd (Selection.load_model probe api_key)) ->
      exists e, probe Selection.primary Selection.hello = Raised e).
Proof.
  unfold Selection.load_model, Selection.try_model.
  split; [|split; [|split]].
  - intros [-> | ->]; reflexivity.
  - intros m. destruct api_key as [[|c k]|]; try discriminate.
    destruct (probe Selection.primary Selection.hello) as [r|e] eqn:P.
    + intros E. injection E as <-. split; [now left | now exists r].
    + destruct (probe Selection.secondary Selection.hello) as [r|e'] eqn:S;
        [|discriminate].
      intros E. injection E as <-. split; [now right | now exists r].
  - intros k response -> Hk P. destruct k as [|c k]; [now elim Hk|].
    now rewrite P.
  - destruct api_key as [[|c k]|]; try (intros []).
    destruct (probe Selection.primary Selection.hello) as [r|e].
    + simpl. intros [H | []]. discriminate H.
    + intros _. now exists e.
Qed.

(** X9: the probe of [chatbot.py] is stricter than that of [app.py].  A
    model the command-line front end accepts is accepted by the web front
    end too, but a model whose probe returns a response without text is
    accepted by the web front end only. *)
Theorem verbose_probe_is_stricter (model_name : str) :
  (fst (Selection.try_model_verbose probe model_name) = Some model_name ->
   Selection.try_model probe model_name = Some model_name)
  /\ (forall e,
         probe model_name Selection.hello = Returned (Raised e) ->
         Selection.try_model probe model_name = Some model_name
         /\ fst (Selection.try_model_verbose probe model_name) = None).
Proof.
  unfold Selection.try_model_verbose, Selection.try_model. split.
  - destruct (probe model_name Selection.hello) as [[t|e]|e];
      [reflexivity | discriminate | discriminate].
  - intros e ->. split; reflexivity.
Qed.

End SelectionFacts.

Lemma load_model_selects_witness :
  In Selection.secondary
    (snd (Selection.load_model Runs.probe_fallback (Some (py "key"))))
  /\ exists e,
       Runs.probe_fallback Selection.primary Selection.hello = Raised e.
Proof.
  assert (H : In Selection.secondary
                (snd (Selection.load_model Runs.probe_fallback
                        (Some (py "key")))))
    by (vm_compute; right; now left).
  split; [exact H|].
  exact (proj2 (proj2 (proj2
           (load_model_selects Runs.probe_fallback (Some (py "key"))))) H).
Defined.

Lemma verbose_probe_is_stricter_witness :
  Selection.try_model Runs.probe_blocked Selection.primary
  = Some Selection.primary
  /\ fst (Selection.try_model_verbose Runs.probe_blocked Selection.primary)
     = None.
Proof.
  exact (proj2 (verbose_probe_is_stricter Runs.probe_blocked
                  Selection.primary)
           (py "The response was blocked.") eq_refl).
Defined.

(** ** The schema description and the table name *)

Lemma join_piece (sep p : str) (parts : list str) :
  In p parts -> piece p (Schema.join sep parts).
Proof.
  induction parts as [|a rest IH]; [intros []|].
  destruct rest as [|b r].
  - intros [<- | []]. apply piece_refl.
  - intros [<- | H].
    + apply piece_prefix.
    + change (Schema.join sep (a :: b :: r))
        with (a ++ sep ++ Schema.join sep (b :: r)).
      apply piece_trans with (u := Schema.join sep (b :: r)); [now apply IH|].
      rewrite app_assoc. apply piece_suffix.
Qed.

Lemma join_app (sep : str) (xs ys : list str) :
  xs <> [] -> ys <> [] ->
  Schema.join sep (xs ++ ys)
  = Schema.join sep xs ++ sep ++ Schema.join sep ys.
Proof.
  intros Hx Hy. induction xs as [|a rest IH]; [now elim Hx|].
  destruct rest as [|b r].
  - destruct ys as [|y ys']; [now elim Hy | reflexivity].
  - change (Schema.join sep ((a :: b :: r) ++ ys))
      with (a ++ sep ++ Schema.join sep ((b :: r) ++ ys)).
    rewrite IH by discriminate.
    change (Schema.join sep (a :: b :: r))
      with (a ++ sep ++ Schema.join sep (b :: r)).
    now rewrite <- !app_assoc.
Qed.

(** X10: the schema description.  It is empty exactly when the data set has
    no column; the label of every column, name and type, occurs in it; and
    the description of columns followed by further columns is the two
    descriptions in that order with a comma and a space between them. *)
Theorem describe_lists_columns (dtypes : list (str * str)) :
  (Schema.describe dtypes = [] <-> dtypes = [])
  /\ (forall col dtype,
         In (col, dtype) dtypes ->
         piece (Schema.column_label col dtype) (Schema.describe dtypes))
  /\ (forall before after,
         dtypes = before ++ after -> before <> [] -> after <> [] ->
         Schema.describe dtypes
         = Schema.describe before ++ py ", " ++ Schema.describe after).
Proof.
  unfold Schema.describe. repeat split.
  - destruct dtypes as [|[c d] rest]; [reflexivity|].
    intros H. exfalso.
    assert (P : piece (Schema.column_label c d)
                  (Schema.join (py ", ")
                     (map (fun cd => Schema.column_label (fst cd) (snd cd))
                        ((c, d) :: rest))))
      by (apply join_piece; now left).
    apply piece_length in P. rewrite H in P.
    unfold Schema.column_label in P. rewrite !length_app in P.
    simpl in P. lia.
  - now intros ->.
  - intros col dtype H. apply join_piece.
    apply in_map_iff. now exists (col, dtype).
  - intros before after -> Hb Ha. rewrite map_app. apply join_app.
    + destruct before; [now elim Hb | discriminate].
    + destruct after; [now elim Ha | discriminate].
Qed.

Lemma rfind_from_absent (c : ascii) (s : str) (i last : Z) :
  ~ In c s -> Schema.rfind_from c s i last = last.
Proof.
  revert i last. induction s as [|a r IH]; simpl; intros i last H;
    [reflexivity|].
  destruct (Ascii.eqb a c) eqn:E.
  - apply Ascii.eqb_eq in E. elim H. now left.
  - apply IH. intros F. apply H. now right.
Qed.

Lemma rfind_from_last (c : ascii) (a b : str) (i last : Z) :
  ~ In c b ->
  Schema.rfind_from c (a ++ c :: b) i last = (i + Z.of_nat (List.length a))%Z.
Proof.
  intros H. revert i last. induction a as [|x a' IH]; simpl; intros i last.
  - rewrite Ascii.eqb_refl, rfind_from_absent by exact H. lia.
  - rewrite IH. lia.
Qed.

Lemma rfind_from_lower (c : ascii) (s : str) (i last : Z) :
  (-1 <= last)%Z -> (0 <= i)%Z -> (-1 <= Schema.rfind_from c s i last)%Z.
Proof.
  revert i last. induction s as [|a r IH]; simpl; intros i last H1 H2;
    [exact H1|].
  destruct (Ascii.eqb a c); apply IH; lia.
Qed.

Lemma splitext_join (p : str) :
  fst (Schema.splitext p) ++ snd (Schema.splitext p) = p.
Proof.
  unfold Schema.splitext.
  destruct (_ >? _)%Z; [|apply app_nil_r].
  destruct (existsb _ _); [apply firstn_skipn | apply app_nil_r].
Qed.

Lemma replace_spaces_no_space (s : str) : ~ In space (Schema.replace_spaces s).
Proof.
  unfold Schema.replace_spaces. intros H.
  apply in_map_iff in H as [c [E _]].
  destruct (Ascii.eqb c space) eqn:S; [discriminate E|].
  subst c. now rewrite Ascii.eqb_refl in S.
Qed.

(** X11: the table of an uploaded file with a plain name.  When the name is
    a stem, a dot and an extension, with no slash in it, no dot in the
    extension and a character other than a dot in the stem, the table is
    named by the stem with every space replaced by an underscore; nothing
    else of the stem is changed. *)
Theorem table_name_of_plain_file (stem ext : str) :
  ~ In "/"%char stem -> ~ In "/"%char ext -> ~ In "."%char ext ->
  existsb (fun c => negb (Ascii.eqb c ".")) stem = true ->
  Schema.splitext (stem ++ "."%char :: ext) = (stem, "."%char :: ext)
  /\ Schema.table_name_of (stem ++ "."%char :: ext)
     = Schema.replace_spaces stem.
Proof.
  intros S1 S2 D N.
  assert (E : Schema.splitext (stem ++ "."%char :: ext)
              = (stem, "."%char :: ext)).
  { unfold Schema.splitext, Schema.rfind.
    rewrite (rfind_from_absent "/"%char).
    2:{ intros H. apply in_app_or in H as [H | [H | H]];
          [now apply S1 | discriminate H | now apply S2]. }
    rewrite rfind_from_last by exact D.
    replace (0 + Z.of_nat (List.length stem) >? -1)%Z with true
      by (symmetry; apply Z.gtb_lt; lia).
    unfold Schema.slice.
    replace (Z.to_nat (0 + Z.of_nat (List.length stem) - (-1 + 1)))
      with (List.length stem) by lia.
    replace (Z.to_nat (-1 + 1)) with 0 by lia.
    replace (Z.to_nat (0 + Z.of_nat (List.length stem)))
      with (List.length stem) by lia.
    cbn [skipn].
    rewrite firstn_app, firstn_all, Nat.sub_diag. cbn [firstn].
    rewrite app_nil_r, N.
    rewrite skipn_app, skipn_all, Nat.sub_diag. reflexivity. }
  split; [exact E|].
  unfold Schema.table_name_of. now rewrite E.
Qed.

(** A character that a literal does not hold. *)
Ltac not_in_literal :=
  let H := fresh "H" in
  intros H; vm_compute in H;
  repeat (destruct H as [H | H]; [discriminate H|]);
  exact H.

Lemma table_name_of_plain_file_witness :
  Schema.table_name_of (py "my sales 2024.csv") = py "my_sales_2024".
Proof.
  apply (@table_name_of_plain_file (py "my sales 2024") (py "csv"));
    [not_in_literal | not_in_literal | not_in_literal | reflexivity].
Defined.

(** X12: the table name of any file name.  It never holds a space, it is
    no longer than the file name, and it is the text before the extension
    that [splitext] finds; a name without a dot is kept whole, its spaces
    replaced. *)
Theorem table_name_of_any_file (file_name : str) :
  ~ In space (Schema.table_name_of file_name)
  /\ List.length (Schema.table_name_of file_name) <= List.length file_name
  /\ (exists ext,
         file_name = fst (Schema.splitext file_name) ++ ext
         /\ Schema.table_name_of file_name
            = Schema.replace_spaces (fst (Schema.splitext file_name)))
  /\ (~ In "."%char file_name ->
      Schema.table_name_of file_name = Schema.replace_spaces file_name).
Proof.
  unfold Schema.table_name_of. split; [apply replace_spaces_no_space|].
  split.
  - unfold Schema.replace_spaces. rewrite length_map.
    rewrite <- (splitext_join file_name) at 2. rewrite length_app. lia.
  - split.
    + exists (snd (Schema.splitext file_name)).
      split; [symmetry; apply splitext_join | reflexivity].
    + intros D. unfold Schema.splitext, Schema.rfind.
      rewrite (rfind_from_absent "."%char) by exact D.
      replace (-1 >? _)%Z with false; [reflexivity|].
      symmetry. rewrite Z.gtb_ltb. apply Z.ltb_ge.
      apply rfind_from_lower; lia.
Qed.

(** ** The script of [app.py] over a session *)

Section ScriptFacts.

Variable generate_content : list call -> str -> outcome str.
Variable execute : list call -> str -> outcome DataFrame.
Variable to_markdown : DataFrame -> str.
Variable show_dataframe : DataFrame -> outcome unit.
Variable missing_attribute : str -> str.
Variable default_to_sql : outcome unit.

Local Notation "'script_run'" :=
  (App.script_run generate_content execute to_markdown show_dataframe
     missing_attribute default_to_sql).
Local Notation "'chat_block'" :=
  (App.chat_block generate_content execute to_markdown show_dataframe
     missing_attribute).

(** The entries of a session: none while the key is absent. *)
Local Notation "'entries' ss" :=
  (match App.history ss with Some h => h | None => [] end)
  (at level 10, ss at level 9).

Lemma default_block_filled (ss ss1 : App.session) :
  App.coherent ss ->
  App.default_block default_to_sql ss = Returned ss1 ->
  App.db_ready ss1 <> None
  /\ App.table_name ss1 <> None
  /\ App.table_info ss1 <> None
  /\ App.history ss1 = App.history ss.
Proof.
  unfold App.coherent, App.default_block. intros C.
  destruct (App.db_ready ss) as [b|] eqn:D.
  - intros E. injection E as <-. rewrite D.
    destruct C as [C1 C2]; [discriminate|]. repeat split; auto. discriminate.
  - destruct default_to_sql; [|discriminate].
    intros E. injection E as <-. simpl. repeat split; discriminate.
Qed.

Lemma upload_block_filled (ss : App.session)
    (uploaded : option App.uploaded_file) :
  App.db_ready ss <> None ->
  App.table_name ss <> None ->
  App.table_info ss <> None ->
  App.db_ready (App.upload_block ss uploaded) <> None
  /\ App.table_name (App.upload_block ss uploaded) <> None
  /\ App.table_info (App.upload_block ss uploaded) <> None
  /\ App.history (App.upload_block ss uploaded) = App.history ss.
Proof.
  intros D N I. unfold App.upload_block.
  destruct uploaded as [f|]; [|now repeat split].
  destruct (App.read_csv f); [|simpl; repeat split; auto; discriminate].
  destruct (App.to_sql f); simpl; repeat split; auto; discriminate.
Qed.

Lemma chat_block_filled (ss : App.session) (submitted : bool)
    (user_input : str) (done : list call) :
  App.table_name ss <> None ->
  App.table_info ss <> None ->
  forallb Display.showable (entries ss) = true ->
  App.db_ready (App.after (chat_block ss submitted user_input done))
  = App.db_ready ss
  /\ App.table_name (App.after (chat_block ss submitted user_input done))
     = App.table_name ss
  /\ App.table_info (App.after (chat_block ss submitted user_input done))
     = App.table_info ss
  /\ forallb Display.showable
       (entries (App.after (chat_block ss submitted user_input done))) = true
  /\ (App.ended (chat_block ss submitted user_input done) = App.Completed
      \/ exists err,
           App.ended (chat_block ss submitted user_input done)
           = App.Crashed err
           /\ Display.table_fails show_dataframe
                (entries (App.after
                            (chat_block ss submitted user_input done))) err).
Proof.
  intros N I S. unfold App.chat_block.
  destruct (App.db_ready ss) as [[|]|] eqn:D;
    try (repeat split; try assumption; now left).
  destruct (App.table_name ss) as [tn|] eqn:Tn; [|now elim N].
  destruct (App.table_info ss) as [ti|] eqn:Ti; [|now elim I].
  unfold App.handle. rewrite Tn, Ti.
  destruct (submit_appends generate_content execute to_markdown submitted
              user_input tn ti done (entries ss)) as [new [E [Sn _]]].
  destruct (submit generate_content execute to_markdown submitted user_input
              tn ti done (entries ss)) as [h' done'].
  simpl in E. subst h'.
  assert (A : forallb Display.showable (entries ss ++ new) = true)
    by now rewrite forallb_app, S, Sn.
  pose proof (render_history_failure show_dataframe (entries ss ++ new)) as F.
  destruct (Display.render_history show_dataframe (entries ss ++ new))
    as [w [f|]]; simpl; (repeat split; try assumption).
  - right. destruct (F f A eq_refl) as [err [-> T]]. now exists err.
  - now left.
Qed.

(** X13: a run of the script keeps the session sound.  If the keys of the
    table are present whenever [db_ready] is, and every entry of the history
    has rows or an error text, the same holds after the run, whatever is
    uploaded and asked; and the run can only end on an uncaught exception
    when the session is new and the default table cannot be written, or when
    [st.dataframe] raises on a table of the history while it is displayed. *)
Theorem script_run_keeps_session_sound (model : Selection.loaded)
    (ss : App.session) (uploaded : option App.uploaded_file)
    (submitted : bool) (user_input : str) (done : list call) :
  App.coherent ss ->
  forallb Display.showable (entries ss) = true ->
  App.coherent
    (App.after (script_run model ss uploaded submitted user_input done))
  /\ forallb Display.showable
       (entries (App.after
                   (script_run model ss uploaded submitted user_input done)))
     = true
  /\ (forall e,
         App.ended (script_run model ss uploaded submitted user_input done)
         = App.Crashed e ->
         (App.db_ready ss = None /\ default_to_sql = Raised e)
         \/ Display.table_fails show_dataframe
              (entries (App.after
                          (script_run model ss uploaded submitted user_input
                             done))) e).
Proof.
  intros C S. unfold App.script_run.
  destruct model as [m|msg];
    [|simpl; split; [exact C|]; split; [exact S|]; intros e E; discriminate E].
  destruct (App.default_block default_to_sql ss) as [ss1|e] eqn:B.
  - destruct (default_block_filled C B) as [D [N [I H]]].
    destruct (@upload_block_filled ss1 uploaded D N I) as [D' [N' [I' H']]].
    assert (S' : forallb Display.showable
                   (entries (App.upload_block ss1 uploaded)) = true)
      by now rewrite H', H.
    destruct (@chat_block_filled (App.upload_block ss1 uploaded) submitted
                user_input done N' I' S') as [E1 [E2 [E3 [E4 E5]]]].
    split; [|split; [exact E4|]].
    + unfold App.coherent. rewrite E2, E3. now split.
    + intros e E. destruct E5 as [E5 | [err [E5 T]]]; rewrite E5 in E;
        [discriminate E|]. injection E as <-. now right.
  - simpl. split; [exact C|]. split; [exact S|].
    intros e' E. simpl in E. injection E as <-. left.
    unfold App.default_block in B.
    destruct (App.db_ready ss); [discriminate B|].
    destruct default_to_sql; [discriminate B|]. now injection B as <-.
Qed.

(** X14: a failed upload switches the chat off.  When reading the file or
    writing its table raises, the run sets [db_ready] to false, keeps the
    name and the description of the table it had, and then neither calls
    the model or the store nor appends to the history, even if a question
    was submitted. *)
Theorem failed_upload_disables_chat (m : str) (ss ss1 : App.session)
    (f : App.uploaded_file) (submitted : bool) (user_input : str)
    (done : list call) :
  App.default_block default_to_sql ss = Returned ss1 ->
  (forall dtypes, App.read_csv f = Returned dtypes ->
                  exists e, App.to_sql f = Raised e) ->
  script_run (Selection.Loaded m) ss (Some f) submitted user_input done
  = {| App.after := App.set_db_ready false ss1;
       App.made := done;
       App.shown := [];
       App.ended := App.Completed |}.
Proof.
  intros B F. unfold App.script_run. rewrite B.
  unfold App.upload_block.
  destruct (App.read_csv f) as [dtypes|e] eqn:R; [|reflexivity].
  destruct (F dtypes eq_refl) as [e ->]. reflexivity.
Qed.

(** X15: a chat that is switched off stays off.  Once [db_ready] is false,
    any number of further runs without a file in the uploader leave the
    session as it is and make no call: the default table is not brought
    back, and the questions of these runs are not recorded. *)
Theorem disabled_chat_stays_disabled (model : Selection.loaded)
    (ss : App.session) (forms : list (bool * str)) (done : list call) :
  App.db_ready ss = Some false ->
  App.runs_without_file generate_content execute to_markdown
    show_dataframe missing_attribute default_to_sql model ss forms done
  = (ss, done).
Proof.
  intros D. induction forms as [|[submitted user_input] rest IH];
    [reflexivity|].
  simpl.
  assert (E : script_run model ss None submitted user_input done
              = {| App.after := ss; App.made := done; App.shown := [];
                   App.ended :=
                     match model with
                     | Selection.Loaded _ => App.Completed
                     | Selection.Halted message => App.Stopped message
                     end |}).
  { unfold App.script_run, App.default_block, App.upload_block,
      App.chat_block.
    destruct model; [|reflexivity].
    rewrite D. cbn iota beta. rewrite D. reflexivity. }
  rewrite E. simpl. exact IH.
Qed.

Lemma turn_first_call (q table_name table_info : str) (done : list call)
    (history : list entry) :
  truthy q = true ->
  exists rest,
    snd (submit generate_content execute to_markdown true q table_name
           table_info done history)
    = done ++ Generate (sql_prompt q table_name table_info) :: rest.
Proof.
  intros T.
  destruct (generate_content done (sql_prompt q table_name table_info))
    as [raw | e] eqn:E1.
  - destruct (execute (done ++ [Generate (sql_prompt q table_name table_info)])
                (clean_sql_query (strip raw))) as [df | e] eqn:E2.
    + rewrite (submit_executed generate_content execute to_markdown
                 q table_name table_info done history T E1 E2).
      match goal with
      | |- context [generate_friendly_answer _ _ _ _ ?s] =>
          pose proof (friendly_answer_calls generate_content to_markdown
                        q df s) as K
      end.
      destruct (generate_friendly_answer generate_content to_markdown q df _)
        as [[answer | e] st]; simpl in K |- *;
        destruct K as [-> | ->]; rewrite <- ?app_assoc; simpl;
        eexists; reflexivity.
    + rewrite (submit_execution_fails generate_content execute to_markdown
                 q table_name table_info done history T E1 E2).
      rewrite <- app_assoc. simpl. eexists. reflexivity.
  - rewrite (submit_generation_fails generate_content execute to_markdown
               q table_name table_info done history T E1).
    simpl. now exists [].
Qed.

(** X16: a question asked in the run that loads a file is asked about that
    file.  When the file is read and its table written, the session takes
    the table name derived from the file name and the description of the
    columns of the file, the first call of the turn is the generation call
    whose prompt holds that name and that description, and the entry of the
    turn is appended to the history kept from the earlier table. *)
Theorem upload_then_question (m : str) (ss ss1 : App.session)
    (f : App.uploaded_file) (dtypes : list (str * str)) (q : str)
    (done : list call) :
  App.default_block default_to_sql ss = Returned ss1 ->
  App.read_csv f = Returned dtypes ->
  App.to_sql f = Returned tt ->
  truthy q = true ->
  App.db_ready
    (App.after (script_run (Selection.Loaded m) ss (Some f) true q done))
  = Some true
  /\ App.table_name
       (App.after (script_run (Selection.Loaded m) ss (Some f) true q done))
     = Some (Schema.table_name_of (App.name f))
  /\ App.table_info
       (App.after (script_run (Selection.Loaded m) ss (Some f) true q done))
     = Some (Schema.describe dtypes)
  /\ (exists rest,
         App.made (script_run (Selection.Loaded m) ss (Some f) true q done)
         = done
             ++ Generate (sql_prompt q (Schema.table_name_of (App.name f))
                            (Schema.describe dtypes)) :: rest)
  /\ (exists ent,
         App.history
           (App.after (script_run (Selection.Loaded m) ss (Some f) true q done))
         = Some (entries ss ++ [ent])
         /\ question ent = q).
Proof.
  intros B R W T.
  assert (H : App.history ss1 = App.history ss).
  { unfold App.default_block in B. destruct (App.db_ready ss).
    - now injection B as <-.
    - destruct default_to_sql; [|discriminate B]. now injection B as <-. }
  unfold App.script_run. rewrite B. unfold App.upload_block. rewrite R, W.
  unfold App.chat_block, App.handle. cbn [App.db_ready App.table_name
    App.table_info App.history]. rewrite H.
  destruct (submit_appends generate_content execute to_markdown true q
              (Schema.table_name_of (App.name f)) (Schema.describe dtypes)
              done (entries ss)) as [new [E [_ [L Q]]]].
  destruct (@turn_first_call q (Schema.table_name_of (App.name f))
              (Schema.describe dtypes) done (entries ss) T) as [rest C].
  destruct (submit generate_content execute to_markdown true q
              (Schema.table_name_of (App.name f)) (Schema.describe dtypes)
              done (entries ss)) as [h' done'].
  simpl in E, C. subst h' done'.
  rewrite T in L. simpl in L.
  destruct new as [|ent [|]]; try discriminate L.
  destruct (Display.render_history show_dataframe (entries ss ++ [ent]))
    as [w [k|]];
    simpl; (repeat split; [now exists rest | exists ent; split;
      [reflexivity | apply Q; now left]]).
Qed.

End ScriptFacts.

Lemma script_run_keeps_session_sound_witness :
  App.coherent
    (App.after
       (App.script_run model_up store_rejects render Runs.show_unless_duplicate
          Runs.attribute_text
          (Returned tt) (Selection.Loaded Selection.primary) App.fresh
          (Some Runs.sales_file) true how_many []))
  /\ App.ended
       (App.script_run model_up store_rejects render Runs.show_unless_duplicate
          Runs.attribute_text
          (Returned tt) (Selection.Loaded Selection.primary) App.fresh
          (Some Runs.sales_file) true how_many [])
     = App.Completed.
Proof.
  split.
  - apply (@script_run_keeps_session_sound model_up store_rejects render Runs.show_unless_duplicate
             Runs.attribute_text (Returned tt)
             (Selection.Loaded Selection.primary) App.fresh
             (Some Runs.sales_file) true how_many []).
    + intros H. now elim H.
    + reflexivity.
  - reflexivity.
Defined.

Lemma failed_upload_disables_chat_witness :
  App.script_run model_up store_counts render Runs.show_unless_duplicate
          Runs.attribute_text
    (Returned tt) (Selection.Loaded Selection.primary) Runs.started
    (Some Runs.broken_file) true how_many []
  = {| App.after := App.set_db_ready false Runs.started;
       App.made := [];
       App.shown := [];
       App.ended := App.Completed |}.
Proof.
  apply (@failed_upload_disables_chat model_up store_counts render Runs.show_unless_duplicate
           Runs.attribute_text (Returned tt) Selection.primary Runs.started
           Runs.started Runs.broken_file true how_many []).
  - reflexivity.
  - intros dtypes H. discriminate H.
Defined.

Lemma disabled_chat_stays_disabled_witness :
  App.runs_without_file model_up store_counts render Runs.show_unless_duplicate
          Runs.attribute_text
    (Returned tt) (Selection.Loaded Selection.primary)
    (App.set_db_ready false Runs.started)
    [(true, how_many); (false, []); (true, py "and now?")] []
  = (App.set_db_ready false Runs.started, []).
Proof.
  apply (@disabled_chat_stays_disabled model_up store_counts render Runs.show_unless_duplicate
           Runs.attribute_text (Returned tt)
           (Selection.Loaded Selection.primary)
           (App.set_db_ready false Runs.started)
           [(true, how_many); (false, []); (true, py "and now?")] []).
  reflexivity.
Defined.

Lemma upload_then_question_witness :
  App.table_name
    (App.after
       (App.script_run model_up store_counts render Runs.show_unless_duplicate
          Runs.attribute_text
          (Returned tt) (Selection.Loaded Selection.primary) Runs.started
          (Some Runs.sales_file) true how_many []))
  = Some (py "my_sales")
  /\ exists rest,
       App.made
         (App.script_run model_up store_counts render Runs.show_unless_duplicate
          Runs.attribute_text
            (Returned tt) (Selection.Loaded Selection.primary) Runs.started
            (Some Runs.sales_file) true how_many [])
       = [] ++ Generate (sql_prompt how_many (py "my_sales")
                           (py "city (object), amount (int64)")) :: rest.
Proof.
  destruct (@upload_then_question model_up store_counts render Runs.show_unless_duplicate
              Runs.attribute_text (Returned tt) Selection.primary
              Runs.started Runs.started Runs.sales_file
              [(py "city", py "object"); (py "amount", py "int64")]
              how_many [] eq_refl eq_refl eq_refl eq_refl)
    as [_ [N [_ [C _]]]].
  split; [exact N | exact C].
Defined.

(** ** The command-line front end *)

Section ChatbotFacts.

Variable generate_content : list call -> str -> outcome str.
Variable execute : list call -> str -> outcome DataFrame.
Variable show_row : list cell -> str.

Local Notation "'turn'" := (Chatbot.turn generate_content execute show_row).
Local Notation "'loop'" := (Chatbot.loop generate_content execute show_row).

Lemma chatbot_turn_effects (q : str) (done : list call) :
  exists new : list call,
    snd (turn q done) = done ++ new
    /\ generations new = 1
    /\ executions new <= 1
    /\ (forall stmt, In (Execute stmt) new -> one_line_or_blank stmt).
Proof.
  unfold Chatbot.turn.
  destruct (generate_content done _) as [text | e].
  - exists [Generate (Chatbot.sql_prompt q Chatbot.table_info);
            Execute (clean_sql_query (strip text))].
    split.
    + destruct (execute _ _); simpl; now rewrite <- app_assoc.
    + split; [reflexivity|]. split; [vm_compute; lia|].
      intros stmt [H | [H | []]]; [discriminate H|].
      injection H as <-. apply clean_sql_query_shape.
  - exists [Generate (Chatbot.sql_prompt q Chatbot.table_info)].
    split; [reflexivity|]. split; [reflexivity|]. split; [vm_compute; lia|].
    intros stmt [H | []]. discriminate H.
Qed.

(** X17: what a session of the command-line front end asks of the outside.
    It makes exactly one generation call for each line typed before the
    first line that says exit, whether the turn fails or not and even for an
    empty line, and at most one execution for each; every statement it
    executes is blank or one trimmed line; and the loop ends by exit exactly
    when some line says exit. *)
Theorem chatbot_session_calls (lines : list str) (done : list call) :
  exists new : list call,
    snd (fst (loop lines done)) = done ++ new
    /\ generations new = List.length (Chatbot.asked lines)
    /\ executions new <= List.length (Chatbot.asked lines)
    /\ (forall stmt, In (Execute stmt) new -> one_line_or_blank stmt)
    /\ (snd (loop lines done) = Chatbot.Exit
        <-> existsb Chatbot.is_exit lines = true).
Proof.
  revert done. induction lines as [|q rest IH]; intros done.
  - exists []. simpl. rewrite app_nil_r.
    split; [reflexivity|]. split; [reflexivity|]. split; [vm_compute; lia|].
    split; [intros stmt []|]. split; discriminate.
  - simpl. destruct (Chatbot.is_exit q) eqn:X.
    + exists []. simpl. rewrite app_nil_r.
      split; [reflexivity|]. split; [reflexivity|]. split; [vm_compute; lia|].
      split; [intros stmt []|]. now split.
    + destruct (chatbot_turn_effects q done) as [new1 [E1 [G1 [X1 S1]]]].
      destruct (turn q done) as [said done'].
      simpl in E1. subst done'.
      destruct (IH (done ++ new1)) as [new2 [E2 [G2 [X2 [S2 W2]]]]].
      destruct (loop rest (done ++ new1)) as [[more done''] how].
      simpl in E2, W2 |- *. subst done''.
      exists (new1 ++ new2). rewrite app_assoc.
      split; [reflexivity|].
      rewrite generations_app, executions_app.
      split; [lia|]. split; [lia|]. split; [|exact W2].
      intros stmt H. apply in_app_or in H as [H | H]; auto.
Qed.

(** X18: nothing is read after exit.  A line that says exit, in any letter
    case, ends the session: what the terminal still holds after it changes
    neither the output nor the calls. *)
Theorem chatbot_stops_at_exit (before after : list str) (x : str)
    (done : list call) :
  Chatbot.is_exit x = true ->
  loop (before ++ x :: after) done = loop (before ++ [x]) done.
Proof.
  intros X. revert done. induction before as [|q rest IH]; intros done.
  - simpl. now rewrite X.
  - simpl. destruct (Chatbot.is_exit q); [reflexivity|].
    destruct (turn q done) as [said done']. now rewrite IH.
Qed.

Lemma loop_stop (lines : list str) (done : list call) :
  snd (loop lines done)
  = if existsb Chatbot.is_exit lines then Chatbot.Exit
    else Chatbot.EndOfInput.
Proof.
  revert done. induction lines as [|q rest IH]; intros done; [reflexivity|].
  simpl. destruct (Chatbot.is_exit q); [reflexivity|].
  destruct (turn q done) as [said done']. specialize (IH done').
  now destruct (loop rest done') as [[more done''] how].
Qed.

Lemma loop_ends_with_prompt (lines : list str) (done : list call) :
  exists before,
    fst (fst (loop lines done)) = before ++ [Chatbot.Prompt (py "> ")].
Proof.
  revert done. induction lines as [|q rest IH]; intros done.
  - now exists [].
  - simpl. destruct (Chatbot.is_exit q); [now exists []|].
    destruct (turn q done) as [said done'].
    destruct (IH done') as [before E].
    destruct (loop rest done') as [[more done''] how]. simpl in E |- *.
    exists (Chatbot.Prompt (py "> ") :: said ++ before).
    rewrite E. simpl. now rewrite <- app_assoc.
Qed.

End ChatbotFacts.

(** X19: how a session of [main] ends once a model is chosen and the
    database is set up.  If some line says exit, the last thing written is
    the prompt that read it.  If the input ends without such a line, the
    end of input is reported by the handler meant for start-up failures:
    the last line printed says that the chatbot failed to initialize. *)
Theorem chatbot_main_ending (k text : str)
    (probe : str -> str -> outcome (outcome str))
    (generate_content : str -> list call -> str -> outcome str)
    (execute : list call -> str -> outcome DataFrame)
    (show_row : list cell -> str) (lines : list str) :
  k <> [] ->
  probe Selection.primary Selection.hello = Returned (Returned text) ->
  exists before,
    Chatbot.main (Some k) probe (Returned tt) generate_content execute
      show_row lines
    = before
        ++ Chatbot.Prompt (py "> ")
        :: (if existsb Chatbot.is_exit lines then []
            else [Chatbot.failed_to_initialize Chatbot.eof_text]).
Proof.
  intros Hk P. unfold Chatbot.main, Selection.try_model_verbose.
  destruct k as [|c k]; [now elim Hk|]. rewrite P.
  pose proof (loop_stop (generate_content Selection.primary)
                execute show_row lines []) as W.
  destruct (loop_ends_with_prompt (generate_content Selection.primary)
              execute show_row lines []) as [before E].
  destruct (Chatbot.loop (generate_content Selection.primary) execute
              show_row lines []) as [[said done'] how].
  simpl in W, E. subst said.
  eexists. cbn [map].
  destruct (existsb Chatbot.is_exit lines); subst how.
  - rewrite app_nil_r, !app_assoc. reflexivity.
  - rewrite !app_assoc. rewrite <- app_assoc with (n := [_]). reflexivity.
Qed.

Lemma chatbot_stops_at_exit_witness :
  Chatbot.loop model_up store_counts Runs.show_count
    ([how_many] ++ py "Exit" :: [py "and the total?"; py "exit"]) []
  = Chatbot.loop model_up store_counts Runs.show_count
      ([how_many] ++ [py "Exit"]) [].
Proof.
  apply (@chatbot_stops_at_exit model_up store_counts Runs.show_count
           [how_many] [py "and the total?"; py "exit"] (py "Exit") []).
  reflexivity.
Defined.

Lemma chatbot_main_ending_witness :
  exists before,
    Chatbot.main (Some (py "key")) Runs.probe_ok (Returned tt)
      (fun _ => model_up) store_counts Runs.show_count [how_many]
    = before
        ++ [Chatbot.Prompt (py "> ");
            Chatbot.Print
              (py "Failed to initialize the chatbot: EOF when reading a line")].
Proof.
  apply (@chatbot_main_ending (py "key") (py "Hello!") Runs.probe_ok
           (fun _ => model_up) store_counts Runs.show_count [how_many]).
  - discriminate.
  - reflexivity.
Defined.
